(** * Cortex: model testing and readiness checking

    A shallow embedding of [backend/src/services/model_testing.py]:
    the two functional tests ([test_chat_model], [test_embedding_model])
    and the three-phase readiness probe ([check_model_readiness]).

    Python values decoded from JSON are an inductive type with the
    operations the module applies to them ([.get], truthiness, [or],
    [str], [in], slicing, iteration), each failing with the exception
    Python raises on a value of the wrong type.  The outside world (name
    lookup, settings, the shared HTTP client) is a record of outcomes:
    each call returns or raises.  Code runs in a small exception monad
    that also logs every HTTP request sent, so that statements can speak
    about which requests a call issues.

    Exceptions are those below [Exception], the ones the module's
    handlers name or catch; cancellation of a task is not modelled.
    JSON decoding is the HTTP library's: a response carries what its
    [json()] does. *)

From Stdlib Require Import ZArith List String Ascii Bool Lia DecimalString.
Import ListNotations.
Open Scope string_scope.
Open Scope Z_scope.

(** ** Python strings

    A [str] is modelled as a [string] of 8-bit characters; only the
    ASCII letters are cased. *)

Module PyStr.

Definition is_upper (c : ascii) : bool :=
  let n := nat_of_ascii c in (65 <=? n)%nat && (n <=? 90)%nat.

Definition is_lower (c : ascii) : bool :=
  let n := nat_of_ascii c in (97 <=? n)%nat && (n <=? 122)%nat.

Definition to_lower (c : ascii) : ascii :=
  if is_upper c then ascii_of_nat (nat_of_ascii c + 32) else c.

Definition to_upper (c : ascii) : ascii :=
  if is_lower c then ascii_of_nat (nat_of_ascii c - 32) else c.

(** [s.lower()] *)
Fixpoint lower (s : string) : string :=
  match s with
  | EmptyString => EmptyString
  | String c s' => String (to_lower c) (lower s')
  end.

(** [s.title()]: a cased character is upper-cased when the previous
    character is not cased, lower-cased otherwise. *)
Fixpoint title_from (previous_is_cased : bool) (s : string) : string :=
  match s with
  | EmptyString => EmptyString
  | String c s' =>
      if is_upper c || is_lower c
      then String (if previous_is_cased then to_lower c else to_upper c)
                  (title_from true s')
      else String c (title_from false s')
  end.

Definition title (s : string) : string := title_from false s.

(** [sub in s] for two strings *)
Fixpoint contains (sub s : string) : bool :=
  prefix sub s ||
  match s with
  | EmptyString => false
  | String _ s' => contains sub s'
  end.

(** [s[:n]] *)
Fixpoint take (n : nat) (s : string) : string :=
  match n, s with
  | O, _ => EmptyString
  | _, EmptyString => EmptyString
  | S n', String c s' => String c (take n' s')
  end.

(** [sep.join(parts)] *)
Fixpoint join (sep : string) (parts : list string) : string :=
  match parts with
  | [] => EmptyString
  | [p] => p
  | p :: rest => p ++ sep ++ join sep rest
  end.

(** [str(n)] for an [int] *)
Definition of_int (n : Z) : string := NilZero.string_of_int (Z.to_int n).

Definition nl : string := String (ascii_of_nat 10) EmptyString.

Definition chars (s : string) : list string :=
  map (fun c => String c EmptyString) (list_ascii_of_string s).

End PyStr.

(** ** Python values

    What [response.json()] yields, and what the module's dict and list
    literals build.  A [dict] keeps its insertion order; a [float] is
    carried by its Python [repr] (["0.7"], ["0.0"], ["nan"], ...). *)

#[local] Set Warnings "-register-all".

Inductive value : Type :=
| VNone
| VBool (b : bool)
| VInt (n : Z)
| VFloat (repr : string)
| VStr (s : string)
| VList (items : list value)
| VDict (entries : list (string * value)).

(** ** Exceptions and results *)

Inductive exc_class : Type :=
| TimeoutException   (* httpx.TimeoutException and its subclasses *)
| ConnectError       (* httpx.ConnectError *)
| gaierror           (* socket.gaierror *)
| AttributeError
| TypeError
| IndexError
| KeyError
| Exception.         (* any other subclass of Exception *)

Record exc : Type := mkExc { exc_cls : exc_class; exc_str : string }.

Inductive result (A : Type) : Type :=
| Ret (a : A)
| Raise (e : exc).
Arguments Ret {A} a.
Arguments Raise {A} e.

Module Py.

Definition quote : ascii := ascii_of_nat 39.
Definition dquote : ascii := ascii_of_nat 34.
Definition backslash : ascii := ascii_of_nat 92.

Definition hex_digit (n : nat) : ascii :=
  if (n <? 10)%nat then ascii_of_nat (48 + n) else ascii_of_nat (87 + n).

Fixpoint has_char (c : ascii) (s : string) : bool :=
  match s with
  | EmptyString => false
  | String d s' => Ascii.eqb c d || has_char c s'
  end.

(** [repr] of a [str]: single quotes unless the text has a single
    quote and no double quote; control characters are escaped. *)
Definition repr_char (q : ascii) (c : ascii) : string :=
  let n := nat_of_ascii c in
  if Ascii.eqb c q || Ascii.eqb c backslash then String backslash (String c EmptyString)
  else if (n =? 9)%nat then String backslash "t"
  else if (n =? 10)%nat then String backslash "n"
  else if (n =? 13)%nat then String backslash "r"
  else if (n <? 32)%nat || (n =? 127)%nat || ((128 <=? n)%nat && (n <=? 160)%nat) || (n =? 173)%nat
       then String backslash (String "x" (String (hex_digit (n / 16)) (String (hex_digit (n mod 16)) EmptyString)))
  else String c EmptyString.

Fixpoint repr_chars (q : ascii) (s : string) : string :=
  match s with
  | EmptyString => EmptyString
  | String c s' => repr_char q c ++ repr_chars q s'
  end.

Definition repr_str (s : string) : string :=
  let q := if has_char quote s && negb (has_char dquote s) then dquote else quote in
  String q (repr_chars q s ++ String q EmptyString).

(** [repr(v)] *)
Fixpoint repr (v : value) : string :=
  match v with
  | VNone => "None"
  | VBool true => "True"
  | VBool false => "False"
  | VInt n => PyStr.of_int n
  | VFloat r => r
  | VStr s => repr_str s
  | VList items => "[" ++ PyStr.join ", " (map repr items) ++ "]"
  | VDict entries =>
      "{" ++ PyStr.join ", "
               (map (fun kv => repr_str (fst kv) ++ ": " ++ repr (snd kv)) entries)
          ++ "}"
  end.

(** [str(v)], also what an f-string field [{v}] formats to *)
Definition str (v : value) : string :=
  match v with
  | VStr s => s
  | _ => repr v
  end.

(** [bool(v)] *)
Definition truthy (v : value) : bool :=
  match v with
  | VNone => false
  | VBool b => b
  | VInt n => negb (n =? 0)
  | VFloat r => negb (String.eqb r "0.0" || String.eqb r "-0.0")
  | VStr s => negb (String.eqb s "")
  | VList items => match items with [] => false | _ => true end
  | VDict entries => match entries with [] => false | _ => true end
  end.

(** [a or b] *)
Definition or_ (a b : value) : value := if truthy a then a else b.

(** [type(v).__name__] *)
Definition type_name (v : value) : string :=
  match v with
  | VNone => "NoneType"
  | VBool _ => "bool"
  | VInt _ => "int"
  | VFloat _ => "float"
  | VStr _ => "str"
  | VList _ => "list"
  | VDict _ => "dict"
  end.

Definition no_attribute (v : value) (attr : string) : exc :=
  mkExc AttributeError
        (String quote (type_name v) ++ String quote " object has no attribute "
           ++ String quote attr ++ String quote "").

Definition type_error (v : value) (what : string) : exc :=
  mkExc TypeError (String quote (type_name v) ++ String quote " object is " ++ what).

Fixpoint lookup (key : string) (entries : list (string * value)) : option value :=
  match entries with
  | [] => None
  | (k, v) :: rest => if String.eqb k key then Some v else lookup key rest
  end.

(** [v.get(key, default)] *)
Definition get_default (v : value) (key : string) (default : value) : result value :=
  match v with
  | VDict entries =>
      Ret (match lookup key entries with Some x => x | None => default end)
  | _ => Raise (no_attribute v "get")
  end.

(** [v.get(key)] *)
Definition get (v : value) (key : string) : result value := get_default v key VNone.

(** [v == s] for a [str] [s] *)
Definition eq_str (v : value) (s : string) : bool :=
  match v with
  | VStr t => String.eqb t s
  | _ => false
  end.

(** [sub in v] for a [str] [sub] *)
Definition contains (sub : string) (v : value) : result bool :=
  match v with
  | VStr s => Ret (PyStr.contains sub s)
  | VList items => Ret (existsb (fun x => eq_str x sub) items)
  | VDict entries => Ret (existsb (fun kv => String.eqb (fst kv) sub) entries)
  | _ => Raise (mkExc TypeError
                  ("argument of type " ++ String quote (type_name v)
                     ++ String quote " is not iterable"))
  end.

(** [v.lower()] *)
Definition lower (v : value) : result string :=
  match v with
  | VStr s => Ret (PyStr.lower s)
  | _ => Raise (no_attribute v "lower")
  end.

(** [v[:n]]; a [dict] rejects the slice as a key ([KeyError] from
    Python 3.12 on, [TypeError] before). *)
Definition slice_to (n : nat) (v : value) : result value :=
  match v with
  | VStr s => Ret (VStr (PyStr.take n s))
  | VList items => Ret (VList (firstn n items))
  | VDict _ => Raise (mkExc TypeError ("unhashable type: " ++ String quote "slice" ++ String quote ""))
  | _ => Raise (type_error v "not subscriptable")
  end.

(** [v[0]] *)
Definition first (v : value) : result value :=
  match v with
  | VList (x :: _) => Ret x
  | VList [] => Raise (mkExc IndexError "list index out of range")
  | VStr (String c _) => Ret (VStr (String c EmptyString))
  | VStr EmptyString => Raise (mkExc IndexError "string index out of range")
  | VDict entries => Raise (mkExc KeyError "0")
  | _ => Raise (type_error v "not subscriptable")
  end.

(** the items [for m in v] visits *)
Definition iter (v : value) : result (list value) :=
  match v with
  | VList items => Ret items
  | VDict entries => Ret (map (fun kv => VStr (fst kv)) entries)
  | VStr s => Ret (map VStr (PyStr.chars s))
  | _ => Raise (type_error v "not iterable")
  end.

Definition is_list (v : value) : bool :=
  match v with VList _ => true | _ => false end.

End Py.

(** ** The outside world and the monad of the module's code *)

(** [httpx.Timeout(connect=, read=, write=, pool=)], in seconds *)
Record Timeout : Type := mkTimeout { connect : Z; read : Z; write : Z; pool : Z }.

Inductive http_method : Type := GET | POST.

Record request : Type := mkRequest {
  req_method : http_method;
  req_url : string;
  req_json : option value;
  req_headers : list (string * string);
  req_timeout : Timeout
}.

(** An [httpx.Response]: [json] is what [response.json()] does, the
    decoded body or the decoding error it raises. *)
Record response : Type := mkResponse {
  status_code : Z;
  text : string;
  json : result value
}.

Record settings : Type := mkSettings { INTERNAL_VLLM_API_KEY : option string }.

(** What the module's collaborators do when called: [socket.gethostbyname],
    [config.get_settings] and the shared [http_client] of [main]. *)
Record world : Type := mkWorld {
  gethostbyname : string -> result unit;
  get_settings : result settings;
  http_client : request -> result response
}.

(** A computation may raise; it threads the log of requests sent so far. *)
Definition M (A : Type) : Type := list request -> result A * list request.

Definition ret {A} (a : A) : M A := fun log => (Ret a, log).

Definition raise {A} (e : exc) : M A := fun log => (Raise e, log).

Definition lift {A} (r : result A) : M A := fun log => (r, log).

Definition bind {A B} (m : M A) (k : A -> M B) : M B :=
  fun log =>
    match m log with
    | (Ret a, log') => k a log'
    | (Raise e, log') => (Raise e, log')
    end.

(** [try: body / except ... as e: handler e] *)
Definition try_except {A} (body : M A) (handler : exc -> M A) : M A :=
  fun log =>
    match body log with
    | (Ret a, log') => (Ret a, log')
    | (Raise e, log') => handler e log'
    end.

Definition rbind {A B} (r : result A) (k : A -> result B) : result B :=
  match r with
  | Ret a => k a
  | Raise e => Raise e
  end.

Notation "x <- c ;; k" := (bind c (fun x => k))
  (at level 61, c at next level, right associativity).
Notation "'let?' x := c 'in' k" := (rbind c (fun x => k))
  (at level 61, x name, c at next level, right associativity).

(** A block of a function body either executes [return r] or falls
    through to the statement after it. *)
Inductive flow (R : Type) : Type :=
| Returned (r : R)
| FellThrough.
Arguments Returned {R} r.
Arguments FellThrough {R}.

Definition run {A} (m : M A) : result A * list request := m [].

Record ReadinessResp : Type := mkReadinessResp {
  status : string;          (* 'ready' | 'loading' | 'stopped' | 'error' *)
  detail : option string
}.

Definition ready : ReadinessResp := mkReadinessResp "ready" None.
Definition loading (d : string) : ReadinessResp := mkReadinessResp "loading" (Some d).
Definition error (d : string) : ReadinessResp := mkReadinessResp "error" (Some d).

Section ModelTesting.

Variable w : world.

Definition send (r : request) : M response :=
  fun log => (http_client w r, (log ++ [r])%list).

(** [http_client.get(url, headers=, timeout=)] *)
Definition http_get (url : string) (headers : list (string * string)) (t : Timeout)
  : M response :=
  send (mkRequest GET url None headers t).

(** [http_client.post(url, json=, headers=, timeout=)] *)
Definition http_post (url : string) (body : value) (headers : list (string * string))
           (t : Timeout) : M response :=
  send (mkRequest POST url (Some body) headers t).

Definition http_error (r : response) : exc :=
  mkExc Exception
        ("Model returned HTTP " ++ PyStr.of_int (status_code r) ++ ": "
           ++ PyStr.take 200 (text r)).

(** *** test_chat_model *)

Definition chat_request_data (model_name : string) : value :=
  VDict [("model", VStr model_name);
         ("messages", VList [VDict [("role", VStr "user"); ("content", VStr "Hello")]]);
         ("max_tokens", VInt 50);
         ("temperature", VFloat "0.7")].

Definition test_headers (internal_key : string) : list (string * string) :=
  if String.eqb internal_key ""
  then [("Content-Type", "application/json")]
  else [("Content-Type", "application/json");
        ("Authorization", "Bearer " ++ internal_key)].

Definition chat_timeout : Timeout := mkTimeout 5 120 10 5.

(** [f"{m.get('role', 'user').title()}: {m.get('content', '')}"] *)
Definition format_message (m : value) : result string :=
  let? role := Py.get_default m "role" (VStr "user") in
  let? titled := match role with
                 | VStr s => Ret (PyStr.title s)
                 | _ => Raise (Py.no_attribute role "title")
                 end in
  let? content := Py.get_default m "content" (VStr "") in
  Ret (titled ++ ": " ++ Py.str content).

Fixpoint format_messages (ms : list value) : result (list string) :=
  match ms with
  | [] => Ret []
  | m :: rest =>
      let? p := format_message m in
      let? ps := format_messages rest in
      Ret (p :: ps)
  end.

Definition build_prompt (messages : value) : result string :=
  let? ms := Py.iter messages in
  let? parts := format_messages ms in
  Ret (PyStr.join (PyStr.nl ++ PyStr.nl) parts ++ PyStr.nl ++ PyStr.nl ++ "Assistant:").

(** the message the chat test reads off an error body (lines 63-64) *)
Definition chat_test_msg (r : response) : result string :=
  let? err := json r in
  let? m := Py.get err "message" in
  let? e := Py.get err "error" in
  Ret (PyStr.lower (Py.str (Py.or_ (Py.or_ m e) (VStr "")))).

Definition completion_request (model_name : string) (request_data : value)
  : result value :=
  let? messages := Py.get_default request_data "messages" (VList []) in
  let? prompt := build_prompt messages in
  let? max_tokens := Py.get_default request_data "max_tokens" (VInt 50) in
  let? temperature := Py.get_default request_data "temperature" (VFloat "0.7") in
  Ret (VDict [("model", VStr model_name);
              ("prompt", VStr prompt);
              ("max_tokens", max_tokens);
              ("temperature", temperature)]).

(** completions response converted to chat format (lines 94-108) *)
Definition to_chat_format (model_name : string) (comp_data : value) : result value :=
  let? id := Py.get comp_data "id" in
  let? created := Py.get comp_data "created" in
  let? model := Py.get_default comp_data "model" (VStr model_name) in
  let? choices := Py.get_default comp_data "choices" (VList [VDict []]) in
  let? choice := Py.first choices in
  let? content := Py.get_default choice "text" (VStr "") in
  let? finish_reason := Py.get choice "finish_reason" in
  let? usage := Py.get comp_data "usage" in
  Ret (VDict [("id", id);
              ("object", VStr "chat.completion");
              ("created", created);
              ("model", model);
              ("choices",
                VList [VDict [("index", VInt 0);
                              ("message", VDict [("role", VStr "assistant");
                                                 ("content", content)]);
                              ("finish_reason", finish_reason)]]);
              ("usage", usage)]).

Definition test_result (request_data response_data : value) : value :=
  VDict [("request", request_data); ("response", response_data)].

Definition chat_fallback (base_url model_name : string)
           (headers : list (string * string)) (request_data : value) : M value :=
  comp_request <- lift (completion_request model_name request_data) ;;
  comp_response <- http_post (base_url ++ "/v1/completions") comp_request headers
                             chat_timeout ;;
  if 400 <=? status_code comp_response
  then raise (http_error comp_response)
  else
    comp_data <- lift (json comp_response) ;;
    response_data <- lift (to_chat_format model_name comp_data) ;;
    ret (test_result request_data response_data).

Definition test_chat_model (base_url model_name internal_key : string) : M value :=
  let request_data := chat_request_data model_name in
  let headers := test_headers internal_key in
  response <- http_post (base_url ++ "/v1/chat/completions") request_data headers
                        chat_timeout ;;
  if 400 <=? status_code response
  then
    attempt <- try_except
                 (msg <- lift (chat_test_msg response) ;;
                  if PyStr.contains "chat template" msg
                  then
                    res <- chat_fallback base_url model_name headers request_data ;;
                    ret (Returned res)
                  else ret FellThrough)
                 (fun _ => ret FellThrough) ;;
    match attempt with
    | Returned res => ret res
    | FellThrough => raise (http_error response)
    end
  else
    response_data <- lift (json response) ;;
    choices <- lift (Py.get response_data "choices") ;;
    if negb (Py.truthy choices)
    then raise (mkExc Exception "Invalid response: missing 'choices' field")
    else ret (test_result request_data response_data).

(** *** test_embedding_model *)

Definition embedding_request_data (model_name : string) : value :=
  VDict [("model", VStr model_name); ("input", VStr "test")].

Definition embedding_timeout : Timeout := mkTimeout 5 10 10 5.

Definition test_embedding_model (base_url model_name internal_key : string) : M value :=
  let request_data := embedding_request_data model_name in
  let headers := test_headers internal_key in
  response <- http_post (base_url ++ "/v1/embeddings") request_data headers
                        embedding_timeout ;;
  if 400 <=? status_code response
  then raise (http_error response)
  else
    response_data <- lift (json response) ;;
    data <- lift (Py.get response_data "data") ;;
    if negb (Py.truthy data) || negb (Py.is_list data)
    then raise (mkExc Exception "Invalid response: missing or invalid 'data' field")
    else
      item <- lift (Py.first data) ;;
      embedding <- lift (Py.get item "embedding") ;;
      if negb (Py.truthy embedding)
      then raise (mkExc Exception "Invalid response: missing 'embedding' in data")
      else ret (test_result request_data response_data).

(** *** check_model_readiness *)

(** lines 202-213: container name first, localhost when it does not
    resolve *)
Definition resolve_base_url (container_name : string) (host_port : option Z)
  : M string :=
  try_except
    (_ <- lift (gethostbyname w container_name) ;;
     ret ("http://" ++ container_name ++ ":8000"))
    (fun e =>
       match exc_cls e with
       | gaierror =>
           match host_port with
           | Some p => if negb (p =? 0)
                       then ret ("http://127.0.0.1:" ++ PyStr.of_int p)
                       else ret "http://127.0.0.1:8000"
           | None => ret "http://127.0.0.1:8000"
           end
       | _ => raise e
       end).

Definition api_key_of (s : settings) : string :=
  match INTERNAL_VLLM_API_KEY s with
  | Some k => if String.eqb k "" then "dev-internal-token" else k
  | None => "dev-internal-token"
  end.

Definition probe_timeout : Timeout := mkTimeout 3 5 3 5.
Definition generation_timeout : Timeout := mkTimeout 5 30 5 10.

(** the message phase 1 reads off a 503 body (lines 235-239) *)
Definition health_503_msg (health_resp : response) : string :=
  match (let? j := json health_resp in
         let? d := Py.get j "detail" in
         let? e := Py.get j "error" in
         let? m := Py.get j "message" in
         Ret (Py.str (Py.or_ (Py.or_ (Py.or_ d e) m) (VStr ""))))
  with
  | Ret msg => msg
  | Raise _ => PyStr.take 200 (text health_resp)
  end.

Definition phase1 (base_url : string) : M (flow ReadinessResp) :=
  try_except
    (health_resp <- http_get (base_url ++ "/health") [] probe_timeout ;;
     if status_code health_resp =? 200
     then ret (Returned ready)
     else if status_code health_resp =? 503
     then
       let msg := health_503_msg health_resp in
       if PyStr.contains "loading" (PyStr.lower msg)
          || PyStr.contains "initializing" (PyStr.lower msg)
       then ret (Returned (loading "model_loading"))
       else ret (Returned (loading ("health_503: " ++ PyStr.take 100 msg)))
     else ret FellThrough)
    (fun e =>
       match exc_cls e with
       | TimeoutException => ret (Returned (loading "health_timeout"))
       | ConnectError => ret (Returned (loading "connection_refused"))
       | _ => ret FellThrough
       end).

(** the loop of lines 269-271: [true] when it returned [ready] *)
Fixpoint find_model (served_model_name : string) (models : list value) : result bool :=
  match models with
  | [] => Ret false
  | m :: rest =>
      let? id := Py.get m "id" in
      if Py.eq_str id served_model_name
      then Ret true
      else find_model served_model_name rest
  end.

(** lines 265-278 *)
Definition models_200 (models_resp : response) (served_model_name : string)
  : ReadinessResp :=
  match (let? data := json models_resp in
         let? models := Py.get_default data "data" (VList []) in
         let? items := Py.iter models in
         let? found := find_model served_model_name items in
         if found then Ret (Returned ready)
         else if negb (Py.truthy models)
              then Ret (Returned (loading "models_list_empty"))
              else Ret FellThrough)
  with
  | Ret (Returned r) => r
  | Ret FellThrough => ready
  | Raise _ => ready
  end.

(** the message phase 2 reads off a 503 body (lines 281-285) *)
Definition models_503_msg (models_resp : response) : value :=
  match (let? j := json models_resp in
         let? e := Py.get_default (Py.or_ j (VDict [])) "error" (VDict []) in
         Py.get_default e "message" (VStr ""))
  with
  | Ret msg => msg
  | Raise _ => VStr (PyStr.take 200 (text models_resp))
  end.

(** lines 287-289 *)
Definition models_503 (models_resp : response) : result ReadinessResp :=
  let msg := models_503_msg models_resp in
  let? exact := Py.contains "Loading model" msg in
  let? is_loading := if exact then Ret true
                     else let? low := Py.lower msg in
                          Ret (PyStr.contains "loading" low) in
  if is_loading
  then Ret (loading "loading_model")
  else let? excerpt := Py.slice_to 100 msg in
       Ret (loading ("503: " ++ Py.str excerpt)).

Definition bearer (api_key : string) : string * string :=
  ("Authorization", "Bearer " ++ api_key).

Definition phase2 (base_url api_key served_model_name : string)
  : M (flow ReadinessResp) :=
  try_except
    (models_resp <- http_get (base_url ++ "/v1/models") [bearer api_key]
                             probe_timeout ;;
     if status_code models_resp =? 200
     then ret (Returned (models_200 models_resp served_model_name))
     else if status_code models_resp =? 503
     then r <- lift (models_503 models_resp) ;; ret (Returned r)
     else ret FellThrough)
    (fun e =>
       match exc_cls e with
       | TimeoutException => ret (Returned (loading "models_timeout"))
       | ConnectError => ret (Returned (loading "connection_refused"))
       | _ => ret FellThrough
       end).

Definition probe_request_data (served_model_name : string) : value :=
  VDict [("model", VStr served_model_name);
         ("messages", VList [VDict [("role", VStr "user"); ("content", VStr "Hi")]]);
         ("max_tokens", VInt 1);
         ("temperature", VFloat "0.0")].

(** the message phase 3 reads off a 503 body (lines 322-326) *)
Definition chat_503_msg (r : response) : value :=
  match (let? j := json r in
         let? e := Py.get_default (Py.or_ j (VDict [])) "error" (VDict []) in
         Py.get_default e "message" (VStr ""))
  with
  | Ret msg => msg
  | Raise _ => VStr (PyStr.take 200 (text r))
  end.

(** lines 328-330 *)
Definition chat_503 (r : response) : result ReadinessResp :=
  let msg := chat_503_msg r in
  let? is_loading := Py.contains "Loading model" msg in
  if is_loading
  then Ret (loading "loading_model")
  else let? excerpt := Py.slice_to 100 msg in
       Ret (error ("503: " ++ Py.str excerpt)).

Definition phase3 (base_url api_key served_model_name : string) : M ReadinessResp :=
  r <- http_post (base_url ++ "/v1/chat/completions")
                 (probe_request_data served_model_name)
                 [("Content-Type", "application/json"); bearer api_key]
                 generation_timeout ;;
  if status_code r =? 200
  then ret ready
  else if status_code r =? 503
  then lift (chat_503 r)
  else ret (error ("HTTP " ++ PyStr.of_int (status_code r))).

(** the body of the outer [try] (lines 216-332) *)
Definition probe (base_url served_model_name : string) : M ReadinessResp :=
  settings <- lift (get_settings w) ;;
  let api_key := api_key_of settings in
  p1 <- phase1 base_url ;;
  match p1 with
  | Returned r => ret r
  | FellThrough =>
      p2 <- phase2 base_url api_key served_model_name ;;
      match p2 with
      | Returned r => ret r
      | FellThrough => phase3 base_url api_key served_model_name
      end
  end.

Definition check_model_readiness (container_name served_model_name : string)
           (host_port : option Z) : M ReadinessResp :=
  base_url <- resolve_base_url container_name host_port ;;
  try_except
    (probe base_url served_model_name)
    (fun e =>
       match exc_cls e with
       | TimeoutException => ret (loading "request_timeout")
       | ConnectError => ret (loading "connection_refused")
       | _ => ret (error (PyStr.take 200 (exc_str e)))
       end).

End ModelTesting.

(** ** Requests the module sends *)

Definition health_request (base_url : string) : request :=
  mkRequest GET (base_url ++ "/health") None [] probe_timeout.

Definition models_request (base_url api_key : string) : request :=
  mkRequest GET (base_url ++ "/v1/models") None [bearer api_key] probe_timeout.

Definition generation_request (base_url api_key served_model_name : string) : request :=
  mkRequest POST (base_url ++ "/v1/chat/completions")
            (Some (probe_request_data served_model_name))
            [("Content-Type", "application/json"); bearer api_key]
            generation_timeout.

Definition chat_request (base_url model_name internal_key : string) : request :=
  mkRequest POST (base_url ++ "/v1/chat/completions")
            (Some (chat_request_data model_name))
            (test_headers internal_key) chat_timeout.

Definition embeddings_request (base_url model_name internal_key : string) : request :=
  mkRequest POST (base_url ++ "/v1/embeddings")
            (Some (embedding_request_data model_name))
            (test_headers internal_key) embedding_timeout.

(** ** Outcomes of the name lookup *)

(** The name resolves, or the lookup fails with [socket.gaierror]. *)
Definition resolvable (w : world) (container_name : string) : Prop :=
  gethostbyname w container_name = Ret tt.

Definition unresolvable (w : world) (container_name : string) : Prop :=
  exists e, gethostbyname w container_name = Raise e /\ exc_cls e = gaierror.

(** Worlds used in examples: a backend that refuses every connection
    except on the listed URLs. *)
Definition refused : result response :=
  Raise (mkExc ConnectError "All connection attempts failed").

Definition name_not_known : result unit :=
  Raise (mkExc gaierror "[Errno -2] Name or service not known").

Definition serving (routes : list (string * result response)) : request -> result response :=
  fun r =>
    match find (fun kv => String.eqb (fst kv) (req_url r)) routes with
    | Some kv => snd kv
    | None => refused
    end.

(** bridge network: the container name resolves *)
Definition bridge_world (routes : list (string * result response)) : world :=
  mkWorld (fun _ => Ret tt) (Ret (mkSettings None)) (serving routes).

(** host network: the container name does not resolve *)
Definition host_world (routes : list (string * result response)) : world :=
  mkWorld (fun _ => name_not_known) (Ret (mkSettings None)) (serving routes).

(** a lookup that rejects names with an empty label before resolving,
    as the IDNA encoding of the argument does *)
Definition idna_failure : result unit :=
  Raise (mkExc Exception
               "encoding with 'idna' codec failed (UnicodeError: label empty or too long)").

Definition strict_lookup_world : world :=
  mkWorld (fun name => if PyStr.contains ".." name then idna_failure else Ret tt)
          (Ret (mkSettings None)) (serving []).

Definition json_response (code : Z) (body : string) (decoded : value) : result response :=
  Ret (mkResponse code body (Ret decoded)).

Definition not_json : result value :=
  Raise (mkExc Exception "Expecting value: line 1 column 1 (char 0)").

Definition plain_response (code : Z) (body : string) : result response :=
  Ret (mkResponse code body not_json).

(** ** The address precedence as the specification words it

    Resolved name on the default inference port, else loopback with the
    fallback port when one was supplied, else loopback on the default
    inference port. *)
Definition AddressResolver_spec (resolves : bool) (container_name : string)
           (host_port : option Z) : string :=
  if resolves then "http://" ++ container_name ++ ":8000"
  else match host_port with
       | Some p => "http://127.0.0.1:" ++ PyStr.of_int p
       | None => "http://127.0.0.1:8000"
       end.

(** ** Shapes of a readiness response *)

(** The three forms in which the prober builds a [ReadinessResp]. *)
Inductive built : ReadinessResp -> Prop :=
| built_ready : built ready
| built_loading d : built (loading d)
| built_error d : built (error d).

(** [ReadinessResp] invariant: [ready] carries no detail, every other
    status carries one. *)
Definition detail_invariant (r : ReadinessResp) : Prop :=
  (status r = "ready" -> detail r = None) /\
  (status r <> "ready" -> exists d, detail r = Some d).

(** a backend on the host network whose health and listing endpoints
    answer 404 and whose generation endpoint times out *)
Definition stalled_world : world :=
  host_world [("http://127.0.0.1:8000/health", plain_response 404 "Not Found");
              ("http://127.0.0.1:8000/v1/models", plain_response 404 "Not Found");
              ("http://127.0.0.1:8000/v1/chat/completions",
                Raise (mkExc TimeoutException "timed out"))].

(** a backend on the bridge network whose health endpoint answers 503
    with the given body *)
Definition warming_world (body : string) (decoded : value) : world :=
  bridge_world [("http://vllm-model-7:8000/health", json_response 503 body decoded)].

(** ** When a phase is inconclusive *)

(** Phase 1 falls through: the health endpoint answered with a status
    other than 200 and 503, or the request failed otherwise than by a
    timeout or a refused connection. *)
Definition health_inconclusive (w : world) (base_url : string) : Prop :=
  match http_client w (health_request base_url) with
  | Ret resp => status_code resp <> 200 /\ status_code resp <> 503
  | Raise e => exc_cls e <> TimeoutException /\ exc_cls e <> ConnectError
  end.

(** Phase 2 falls through: a status other than 200 and 503, a 503 whose
    message cannot be inspected, or a failure other than a timeout or a
    refused connection. *)
Definition models_inconclusive (w : world) (base_url api_key : string) : Prop :=
  match http_client w (models_request base_url api_key) with
  | Ret resp => status_code resp <> 200 /\
                (status_code resp = 503 -> exists e, models_503 resp = Raise e)
  | Raise e => exc_cls e <> TimeoutException /\ exc_cls e <> ConnectError
  end.

(** the target identifier appears in the listing *)
Definition listed (served_model_name : string) (models : list value) : Prop :=
  exists m, In m models /\ Py.get m "id" = Ret (VStr served_model_name).

(** a backend on the bridge network without a health endpoint, whose
    listing endpoint answers as given *)
Definition listing_world (listing : result response) : world :=
  bridge_world [("http://vllm-model-7:8000/health", plain_response 404 "Not Found");
                ("http://vllm-model-7:8000/v1/models", listing)].

(** a backend on the bridge network with neither health nor listing
    endpoint, whose generation endpoint answers as given *)
Definition generation_world (answer : result response) : world :=
  bridge_world [("http://vllm-model-7:8000/health", plain_response 404 "Not Found");
                ("http://vllm-model-7:8000/v1/models", plain_response 404 "Not Found");
                ("http://vllm-model-7:8000/v1/chat/completions", answer)].

(** ** The error normalizer as the specification words it

    One routine that tries the key paths [detail], [error] as a string,
    [error.message], [message], in that order, and returns the first
    match or the empty string. *)
Definition text_of (v : option value) : option string :=
  match v with
  | Some (VStr s) => Some s
  | _ => None
  end.

Definition key_paths : list (list (string * value) -> option string) :=
  [ fun body => text_of (Py.lookup "detail" body);
    fun body => text_of (Py.lookup "error" body);
    fun body => match Py.lookup "error" body with
                | Some (VDict e) => text_of (Py.lookup "message" e)
                | _ => None
                end;
    fun body => text_of (Py.lookup "message" body) ].

Fixpoint first_match (paths : list (list (string * value) -> option string))
         (body : list (string * value)) : string :=
  match paths with
  | [] => ""
  | p :: rest => match p body with
                 | Some s => s
                 | None => first_match rest body
                 end
  end.

Definition ProbeError_normalizer (body : value) : string :=
  match body with
  | VDict entries => first_match key_paths entries
  | _ => ""
  end.

(** [d.get(k1) or d.get(k2) or ... or ""] *)
Fixpoint first_truthy (keys : list string) (entries : list (string * value)) : value :=
  match keys with
  | [] => VStr ""
  | k :: rest =>
      match Py.lookup k entries with
      | Some v => if Py.truthy v then v else first_truthy rest entries
      | None => first_truthy rest entries
      end
  end.

(** an error answer whose message sits under [detail] *)
Definition detail_body : value := VDict [("detail", VStr "model is loading")].

Definition detail_response : response :=
  mkResponse 503 "{'detail': 'model is loading'}" (Ret detail_body).

(** ** The chat test's fallback *)

Definition chat_message (role content : string) : value :=
  VDict [("role", VStr role); ("content", VStr content)].

(** ["<Role>: <content>"], the role title-cased *)
Definition prompt_line (m : string * string) : string :=
  PyStr.title (fst m) ++ ": " ++ snd m.

(** the raw completion request of the retry *)
Definition completion_http_request (base_url model_name internal_key : string) : request :=
  mkRequest POST (base_url ++ "/v1/completions")
            (Some (VDict [("model", VStr model_name);
                          ("prompt", VStr ("User: Hello" ++ PyStr.nl ++ PyStr.nl ++ "Assistant:"));
                          ("max_tokens", VInt 50);
                          ("temperature", VFloat "0.7")]))
            (test_headers internal_key) chat_timeout.

(** the error raised for the first answer: status code and the first
    200 characters of the body *)
Definition original_error (resp : response) : exc :=
  mkExc Exception
        ("Model returned HTTP " ++ PyStr.of_int (status_code resp) ++ ": "
           ++ PyStr.take 200 (text resp)).

(** the single choice of a normalized response *)
Definition assistant_choice (content finish_reason : value) : value :=
  VDict [("index", VInt 0);
         ("message", VDict [("role", VStr "assistant"); ("content", content)]);
         ("finish_reason", finish_reason)].

Definition entry_or (key : string) (entries : list (string * value)) (default : value)
  : value :=
  match Py.lookup key entries with
  | Some v => v
  | None => default
  end.

(** a backend without chat template: the chat endpoint answers 400, the
    completions endpoint answers as given *)
Definition templateless_world (completion : result response) : world :=
  bridge_world
    [("http://vllm-model-7:8000/v1/chat/completions",
       json_response 400 "{'message': 'no chat template configured'}"
                     (VDict [("message", VStr "no chat template configured")]));
     ("http://vllm-model-7:8000/v1/completions", completion)].

Definition templateless_answer : response :=
  mkResponse 400 "{'message': 'no chat template configured'}"
             (Ret (VDict [("message", VStr "no chat template configured")])).

Definition completion_ok : response :=
  mkResponse 200 "{'choices': [{'text': 'ok'}], 'usage': {'total_tokens': 5}}"
             (Ret (VDict [("choices", VList [VDict [("text", VStr "ok")]]);
                          ("usage", VDict [("total_tokens", VInt 5)])])).

(** a completions answer in chat format (section 4.5 of the
    specification): identifier, creation time, model name and usage
    kept, one choice built from the first completion choice *)
Definition normalized_response (model_name : string)
           (entries choice : list (string * value)) : value :=
  VDict [("id", entry_or "id" entries VNone);
         ("object", VStr "chat.completion");
         ("created", entry_or "created" entries VNone);
         ("model", entry_or "model" entries (VStr model_name));
         ("choices", VList [assistant_choice (entry_or "text" choice (VStr ""))
                                             (entry_or "finish_reason" choice VNone)]);
         ("usage", entry_or "usage" entries VNone)].

(** [response["choices"][0]["message"]["content"]] *)
Definition message_content (response_data : value) : result value :=
  let? choices := Py.get response_data "choices" in
  let? choice := Py.first choices in
  let? message := Py.get choice "message" in
  Py.get message "content".

(** a backend whose chat and embeddings endpoints answer 200 with the
    given decoded body *)
Definition answering_world (decoded : value) : world :=
  bridge_world [("http://vllm-model-7:8000/v1/chat/completions", json_response 200 "" decoded);
                ("http://vllm-model-7:8000/v1/embeddings", json_response 200 "" decoded)].

(** ** Escalation of the readiness probe *)

(** Phase 1 decided: the complement of [health_inconclusive]. *)
Definition health_conclusive (w : world) (base_url : string) : Prop :=
  match http_client w (health_request base_url) with
  | Ret resp => status_code resp = 200 \/ status_code resp = 503
  | Raise e => exc_cls e = TimeoutException \/ exc_cls e = ConnectError
  end.

(** Phase 2 decided: the complement of [models_inconclusive]. *)
Definition models_conclusive (w : world) (base_url api_key : string) : Prop :=
  match http_client w (models_request base_url api_key) with
  | Ret resp => status_code resp = 200 \/
                (status_code resp = 503 /\ exists r, models_503 resp = Ret r)
  | Raise e => exc_cls e = TimeoutException \/ exc_cls e = ConnectError
  end.

(** a failure of the transport that says nothing about the model *)
Definition transient (e : exc) : Prop :=
  exc_cls e = TimeoutException \/ exc_cls e = ConnectError.

(** a listing that the prober takes as empty: [data] missing, or an
    empty list, object or string *)
Definition empty_listing (resp : response) : Prop :=
  exists entries,
    json resp = Ret (VDict entries) /\
    (entry_or "data" entries (VList []) = VList [] \/
     entry_or "data" entries (VList []) = VDict [] \/
     entry_or "data" entries (VList []) = VStr "").

(** ** Shapes the functional tests accept *)

(** a completion that can be converted: an object whose [choices] is
    missing or a list starting with an object; the fields of the first
    choice (none when [choices] is missing) *)
Definition first_choice (comp_data : value) : option (list (string * value) * list (string * value)) :=
  match comp_data with
  | VDict entries =>
      match Py.lookup "choices" entries with
      | None => Some (entries, [])
      | Some (VList (VDict choice :: _)) => Some (entries, choice)
      | Some _ => None
      end
  | _ => None
  end.

(** a body the embeddings test accepts: an object whose [data] is a
    list starting with an object that has a truthy [embedding] *)
Definition valid_embeddings (body : value) : Prop :=
  exists entries item rest,
    body = VDict entries /\
    Py.lookup "data" entries = Some (VList (VDict item :: rest)) /\
    Py.truthy (entry_or "embedding" item VNone) = true.

(** a body the chat test accepts: an object with a truthy [choices] *)
Definition valid_chat (body : value) : Prop :=
  exists entries,
    body = VDict entries /\ Py.truthy (entry_or "choices" entries VNone) = true.

(** a backend whose chat endpoint answers 200 with a well-formed
    chat completion *)
Definition chat_ok_body : value :=
  VDict [("id", VStr "chatcmpl-1");
         ("choices", VList [VDict [("index", VInt 0);
                                   ("message", VDict [("role", VStr "assistant");
                                                      ("content", VStr "Hello!")])]])].

Definition embeddings_ok_body : value :=
  VDict [("data", VList [VDict [("embedding", VList [VFloat "0.1"; VFloat "0.2"])]])].

(** a lookup that fails otherwise than by [socket.gaierror] *)
Definition lookup_crashes (w : world) (container_name : string) (e : exc) : Prop :=
  gethostbyname w container_name = Raise e /\ exc_cls e <> gaierror.

(** ** Responses with a nonempty detail *)

Inductive populated : ReadinessResp -> Prop :=
| populated_ready : populated ready
| populated_loading d : d <> "" -> populated (loading d)
| populated_error d : d <> "" -> populated (error d).

(** a backend with neither health nor listing endpoint, whose generation
    request fails with an exception that carries no message *)
Definition silent_failure_world : world :=
  generation_world (Raise (mkExc Exception "")).

(** error answers that tell of the absent chat template outside the
    keys the chat test reads: under [detail], and in a body that is not
    JSON *)
Definition template_detail_body : value :=
  VDict [("detail", VStr "model has no chat template")].

Definition template_detail_response : response :=
  mkResponse 400 "{'detail': 'model has no chat template'}" (Ret template_detail_body).

Definition template_plain_response : response :=
  mkResponse 400 "Cannot use chat template: none is set" not_json.
(** * Properties *)

(** ** Python strings and values on examples *)

Example title_user : PyStr.title "user" = "User".
Proof. reflexivity. Qed.

Example title_words : PyStr.title "hello wORLD x1y" = "Hello World X1Y".
Proof. reflexivity. Qed.

Example of_int_examples :
  PyStr.of_int 503 = "503" /\ PyStr.of_int 0 = "0" /\ PyStr.of_int (-7) = "-7".
Proof. repeat split. Qed.

Example contains_examples :
  PyStr.contains "chat template" "no chat template set" = true /\
  PyStr.contains "loading" "Loading" = false /\
  PyStr.contains "" "" = true.
Proof. repeat split. Qed.

Example repr_nested :
  Py.str (VDict [("message", VStr "No chat template"); ("code", VInt 400)])
  = "{'message': 'No chat template', 'code': 400}".
Proof. reflexivity. Qed.

Example repr_quotes :
  Py.repr (VList [VStr "it's"; VStr "a\b"; VNone; VBool true; VFloat "0.7"])
  = "[" ++ String Py.dquote ("it's" ++ String Py.dquote ", 'a\\b', None, True, 0.7]").
Proof. reflexivity. Qed.

Example get_on_list :
  Py.get (VList []) "id"
  = Raise (mkExc AttributeError "'list' object has no attribute 'get'").
Proof. reflexivity. Qed.

(** ** Basic facts about the monad *)

Ltac unfold_monad :=
  unfold run, http_get, http_post, send, bind, try_except, ret, raise, lift in *;
  cbv beta in *.

(** ** Address resolution *)

Lemma resolve_resolvable w c hp log :
  resolvable w c ->
  resolve_base_url w c hp log = (Ret ("http://" ++ c ++ ":8000"), log).
Proof.
  unfold resolvable, resolve_base_url. intros H.
  unfold try_except, bind, lift, ret. rewrite H. reflexivity.
Qed.

Lemma resolve_unresolvable w c hp log :
  unresolvable w c ->
  resolve_base_url w c hp log =
  (Ret (match hp with
        | Some p => if p =? 0 then "http://127.0.0.1:8000"
                    else "http://127.0.0.1:" ++ PyStr.of_int p
        | None => "http://127.0.0.1:8000"
        end), log).
Proof.
  intros (e & H & Hc). unfold resolve_base_url, try_except, bind, lift, ret.
  rewrite H, Hc. destruct hp as [p|]; [|reflexivity].
  destruct (p =? 0); reflexivity.
Qed.

Lemma resolve_total w c hp log :
  resolvable w c \/ unresolvable w c ->
  exists base, resolve_base_url w c hp log = (Ret base, log).
Proof.
  intros [H|H].
  - eexists. apply resolve_resolvable, H.
  - eexists. apply resolve_unresolvable, H.
Qed.

(** C7, as stated, fails when the fallback port supplied is 0: the
    code's test [if host_port:] treats it as absent and picks the
    default port, where the stated precedence asks for loopback with the
    supplied port. *)
Lemma address_precedence_port_zero :
  unresolvable (host_world []) "vllm-model-7" /\
  run (resolve_base_url (host_world []) "vllm-model-7" (Some 0))
  = (Ret "http://127.0.0.1:8000", []) /\
  AddressResolver_spec false "vllm-model-7" (Some 0) = "http://127.0.0.1:0" /\
  fst (run (resolve_base_url (host_world []) "vllm-model-7" (Some 0)))
  <> Ret (AddressResolver_spec false "vllm-model-7" (Some 0)).
Proof.
  split; [|split; [|split]].
  - eexists. split; reflexivity.
  - reflexivity.
  - reflexivity.
  - vm_compute. discriminate.
Qed.

(** C7 (amended): whether the container name resolves or not, and
    whatever the fallback port, address resolution produces a base
    address: the resolved name on port 8000; else loopback with the
    fallback port when a nonzero one was supplied; else (no port, or
    port 0) loopback on port 8000.  No request is sent. *)
Theorem address_precedence w c hp :
  resolvable w c \/ unresolvable w c ->
  exists base,
    run (resolve_base_url w c hp) = (Ret base, []) /\
    (resolvable w c -> base = "http://" ++ c ++ ":8000") /\
    (unresolvable w c ->
     forall p, hp = Some p -> p <> 0 -> base = "http://127.0.0.1:" ++ PyStr.of_int p) /\
    (unresolvable w c -> hp = None \/ hp = Some 0 -> base = "http://127.0.0.1:8000").
Proof.
  intros [H|H].
  - exists ("http://" ++ c ++ ":8000"). split; [apply resolve_resolvable, H|].
    split; [reflexivity|].
    unfold resolvable in H.
    split; intros (e & He & _); congruence.
  - eexists. split; [apply resolve_unresolvable, H|].
    split.
    + intros Hr. destruct H as (e & He & _). unfold resolvable in Hr. congruence.
    + split.
      * intros _ p -> Hp. apply Z.eqb_neq in Hp. rewrite Hp. reflexivity.
      * intros _ [->| ->]; reflexivity.
Qed.

Lemma address_precedence_witness :
  exists base,
    run (resolve_base_url (host_world []) "vllm-model-7" (Some 8001)) = (Ret base, []) /\
    (resolvable (host_world []) "vllm-model-7" -> base = "http://vllm-model-7:8000") /\
    (unresolvable (host_world []) "vllm-model-7" ->
     forall p, Some 8001 = Some p -> p <> 0 -> base = "http://127.0.0.1:" ++ PyStr.of_int p) /\
    (unresolvable (host_world []) "vllm-model-7" ->
     Some 8001 = None \/ Some 8001 = Some 0 -> base = "http://127.0.0.1:8000").
Proof.
  apply (address_precedence (host_world []) "vllm-model-7" (Some 8001)).
  right. exists (mkExc gaierror "[Errno -2] Name or service not known").
  split; reflexivity.
Defined.

Example address_bridge :
  run (resolve_base_url (bridge_world []) "vllm-model-7" (Some 8001))
  = (Ret "http://vllm-model-7:8000", []).
Proof. reflexivity. Qed.

Example address_host_port :
  run (resolve_base_url (host_world []) "vllm-model-7" (Some 8001))
  = (Ret "http://127.0.0.1:8001", []).
Proof. reflexivity. Qed.

Example address_host_default :
  run (resolve_base_url (host_world []) "vllm-model-7" None)
  = (Ret "http://127.0.0.1:8000", []).
Proof. reflexivity. Qed.

(** ** The readiness probe: structure *)

Ltac break_match :=
  match goal with
  | |- context [match ?x with _ => _ end] => destruct x eqn:?
  | H : context [match ?x with _ => _ end] |- _ => destruct x eqn:?
  end.

Ltac break_if :=
  match goal with
  | |- context [if ?c then _ else _] => destruct c eqn:?
  end.

Ltac inv H := inversion H; subst; clear H.

Ltac destruct_http resp e :=
  match goal with
  | |- context [http_client ?w ?r] => destruct (http_client w r) as [resp|e] eqn:?
  end.

Lemma take_length n s : (String.length (PyStr.take n s) <= n)%nat.
Proof.
  revert s. induction n as [|n IH]; intros s; simpl; [lia|].
  destruct s; simpl; [lia|]. specialize (IH s). lia.
Qed.

Lemma built_invariant r : built r -> detail_invariant r.
Proof.
  intros []; split; simpl; intros H; try reflexivity; try discriminate;
    try (exfalso; apply H; reflexivity); eauto.
Qed.

(** After the address is chosen, the call is the outer [try] around the
    probe: what the probe returns is returned, what it raises is turned
    into a response. *)
Lemma check_after_resolution w c s hp base :
  run (resolve_base_url w c hp) = (Ret base, []) ->
  run (check_model_readiness w c s hp) =
  match run (probe w base s) with
  | (Ret r, log) => (Ret r, log)
  | (Raise e, log) =>
      (Ret (match exc_cls e with
            | TimeoutException => loading "request_timeout"
            | ConnectError => loading "connection_refused"
            | _ => error (PyStr.take 200 (exc_str e))
            end), log)
  end.
Proof.
  intros H. unfold check_model_readiness, run, bind in *. rewrite H.
  unfold try_except. destruct (probe w base s []) as [[r|e] log]; [reflexivity|].
  destruct (exc_cls e); reflexivity.
Qed.

Lemma resolve_sends_nothing w c hp res log :
  run (resolve_base_url w c hp) = (res, log) -> log = [].
Proof.
  unfold resolve_base_url, run, try_except, bind, lift, ret, raise.
  destruct (gethostbyname w c) as [[]|e]; [congruence|].
  destruct (exc_cls e); try congruence.
  destruct hp as [p|]; [destruct (negb (p =? 0))|]; congruence.
Qed.

Lemma phase1_built w base log r log' :
  phase1 w base log = (Ret (Returned r), log') -> built r.
Proof.
  unfold phase1. unfold_monad.
  destruct_http resp e.
  - repeat break_if; cbv iota beta; intros H; inv H; constructor.
  - destruct (exc_cls e); intros H; inv H; constructor.
Qed.

Lemma models_200_built resp s : built (models_200 resp s).
Proof.
  unfold models_200. repeat break_match; try constructor;
    unfold rbind in *; repeat break_match; try congruence;
    match goal with H : Ret _ = Ret _ |- _ => inv H end; constructor.
Qed.

Lemma models_503_built resp r : models_503 resp = Ret r -> built r.
Proof.
  unfold models_503, rbind. repeat break_match; intros H; inv H; constructor.
Qed.

Lemma phase2_built w base key s log r log' :
  phase2 w base key s log = (Ret (Returned r), log') -> built r.
Proof.
  unfold phase2. unfold_monad.
  destruct_http resp e.
  - destruct (status_code resp =? 200).
    + intros H; inv H. apply models_200_built.
    + destruct (status_code resp =? 503).
      * destruct (models_503 resp) eqn:E.
        -- intros H; inv H. eapply models_503_built; eauto.
        -- destruct (exc_cls e); intros H; inv H; constructor.
      * intros H; inv H.
  - destruct (exc_cls e); intros H; inv H; constructor.
Qed.

Lemma chat_503_built resp r : chat_503 resp = Ret r -> built r.
Proof.
  unfold chat_503, rbind. repeat break_match; intros H; inv H; constructor.
Qed.

Lemma phase3_built w base key s log r log' :
  phase3 w base key s log = (Ret r, log') -> built r.
Proof.
  unfold phase3. unfold_monad.
  destruct_http resp e; [|discriminate].
  destruct (status_code resp =? 200); [intros H; inv H; constructor|].
  destruct (status_code resp =? 503).
  - destruct (chat_503 resp) eqn:E; intros H; inv H. eapply chat_503_built; eauto.
  - intros H; inv H; constructor.
Qed.

Lemma probe_built w base s log r log' :
  probe w base s log = (Ret r, log') -> built r.
Proof.
  unfold probe. unfold bind at 1. unfold lift.
  destruct (get_settings w) as [st|e]; [|discriminate].
  unfold bind at 1.
  destruct (phase1 w base log) as [[[r1|]|e1] l1] eqn:E1; try discriminate.
  - unfold ret. intros H; inv H. eapply phase1_built; eauto.
  - unfold bind at 1.
    destruct (phase2 w base (api_key_of st) s l1) as [[[r2|]|e2] l2] eqn:E2;
      try discriminate.
    + unfold ret. intros H; inv H. eapply phase2_built; eauto.
    + apply phase3_built.
Qed.

Lemma check_built w c s hp r log :
  run (check_model_readiness w c s hp) = (Ret r, log) -> built r.
Proof.
  destruct (run (resolve_base_url w c hp)) as [[base|e] l0] eqn:E.
  - pose proof (resolve_sends_nothing _ _ _ _ _ E); subst l0.
    rewrite (check_after_resolution _ _ _ _ _ E).
    destruct (run (probe w base s)) as [[r'|e] l] eqn:Ep.
    + intros H; inv H. eapply probe_built; eauto.
    + intros H; inv H. destruct (exc_cls e); constructor.
  - unfold check_model_readiness, run, bind in *. rewrite E. discriminate.
Qed.

(** ** The outer guard *)

(** C3: the defect.  [check_model_readiness] is written never to raise:
    its docstring promises a [ReadinessResp], and everything from the
    imports on runs under a catch-all.  The name lookup alone runs
    before the outer [try], under a handler for [socket.gaierror] only,
    so a lookup that fails in another way (here the IDNA encoding of a
    name with an empty label, a [UnicodeError]) leaves the function by
    an exception. *)
Lemma readiness_raises_on_lookup_crash :
  run (check_model_readiness strict_lookup_world "cortex..vllm" "llama" None)
  = (Raise (mkExc Exception
                  "encoding with 'idna' codec failed (UnicodeError: label empty or too long)"),
     []) /\
  ~ exists r log,
      run (check_model_readiness strict_lookup_world "cortex..vllm" "llama" None)
      = (Ret r, log).
Proof.
  split; [reflexivity|].
  intros (r & log & H). vm_compute in H. discriminate.
Qed.

(** The guard itself: once the container name has resolved, or has
    failed to resolve with [socket.gaierror], [check_model_readiness]
    returns a [ReadinessResp] whatever the settings and the HTTP client
    do.  An exception escaping the phases is answered by its class: a
    timeout by [loading] / [request_timeout], a connection error by
    [loading] / [connection_refused], anything else by [error] with the
    first 200 characters of the exception's text. *)
Theorem readiness_returns_after_lookup w c s hp :
  resolvable w c \/ unresolvable w c ->
  exists base r log,
    run (resolve_base_url w c hp) = (Ret base, []) /\
    run (check_model_readiness w c s hp) = (Ret r, log) /\
    (forall e log', run (probe w base s) = (Raise e, log') ->
       log = log' /\
       match exc_cls e with
       | TimeoutException => r = loading "request_timeout"
       | ConnectError => r = loading "connection_refused"
       | _ => status r = "error" /\
              exists d, detail r = Some d /\ d = PyStr.take 200 (exc_str e) /\
                        (String.length d <= 200)%nat
       end).
Proof.
  intros H.
  destruct (resolve_total w c hp [] H) as (base & Hb).
  exists base. rewrite (check_after_resolution _ _ _ _ _ Hb).
  destruct (run (probe w base s)) as [[r|e] log] eqn:Ep.
  - exists r, log. repeat split; auto; discriminate.
  - eexists _, log. split; [exact Hb|]. split; [reflexivity|].
    intros e' log' Heq. inv Heq. split; [reflexivity|].
    destruct (exc_cls e'); try reflexivity;
      (split; [reflexivity|]; eexists; split; [reflexivity|]; split;
       [reflexivity|apply take_length]).
Qed.

Lemma readiness_returns_after_lookup_witness :
  exists base r log,
    run (resolve_base_url stalled_world "vllm-model-7" None) = (Ret base, []) /\
    run (check_model_readiness stalled_world "vllm-model-7" "llama" None) = (Ret r, log) /\
    (forall e log', run (probe stalled_world base "llama") = (Raise e, log') ->
       log = log' /\
       match exc_cls e with
       | TimeoutException => r = loading "request_timeout"
       | ConnectError => r = loading "connection_refused"
       | _ => status r = "error" /\
              exists d, detail r = Some d /\ d = PyStr.take 200 (exc_str e) /\
                        (String.length d <= 200)%nat
       end).
Proof.
  apply (readiness_returns_after_lookup stalled_world "vllm-model-7" "llama" None).
  right. exists (mkExc gaierror "[Errno -2] Name or service not known").
  split; reflexivity.
Defined.

Example generation_timeout_is_loading :
  run (check_model_readiness stalled_world "vllm-model-7" "llama" None)
  = (Ret (loading "request_timeout"),
     [health_request "http://127.0.0.1:8000";
      models_request "http://127.0.0.1:8000" "dev-internal-token";
      generation_request "http://127.0.0.1:8000" "dev-internal-token" "llama"]).
Proof. reflexivity. Qed.

Example settings_failure_is_error :
  let w := mkWorld (fun _ => Ret tt)
                   (Raise (mkExc Exception "1 validation error for Settings"))
                   (serving []) in
  run (check_model_readiness w "vllm-model-7" "llama" None)
  = (Ret (error "1 validation error for Settings"), []).
Proof. reflexivity. Qed.

(** ** Phase 1: the health check *)

Lemma phase1_response w base log resp :
  http_client w (health_request base) = Ret resp ->
  phase1 w base log =
  (Ret (if status_code resp =? 200 then Returned ready
        else if status_code resp =? 503
             then Returned
                    (if PyStr.contains "loading" (PyStr.lower (health_503_msg resp))
                        || PyStr.contains "initializing" (PyStr.lower (health_503_msg resp))
                     then loading "model_loading"
                     else loading ("health_503: " ++ PyStr.take 100 (health_503_msg resp)))
             else FellThrough),
   (log ++ [health_request base])%list).
Proof.
  intros H. unfold phase1. unfold_monad. unfold health_request in H. rewrite H.
  repeat break_if; reflexivity.
Qed.

Lemma phase1_exception w base log e :
  http_client w (health_request base) = Raise e ->
  phase1 w base log =
  (Ret (match exc_cls e with
        | TimeoutException => Returned (loading "health_timeout")
        | ConnectError => Returned (loading "connection_refused")
        | _ => FellThrough
        end),
   (log ++ [health_request base])%list).
Proof.
  intros H. unfold phase1. unfold_monad. unfold health_request in H. rewrite H.
  destruct (exc_cls e); reflexivity.
Qed.

Lemma probe_phase1_returned w base s st r log :
  get_settings w = Ret st ->
  phase1 w base [] = (Ret (Returned r), log) ->
  run (probe w base s) = (Ret r, log).
Proof.
  intros Hs H. unfold probe, run. unfold bind at 1. unfold lift. rewrite Hs.
  unfold bind at 1. rewrite H. reflexivity.
Qed.

Lemma check_phase1_returned w c s hp base st r log :
  run (resolve_base_url w c hp) = (Ret base, []) ->
  get_settings w = Ret st ->
  phase1 w base [] = (Ret (Returned r), log) ->
  run (check_model_readiness w c s hp) = (Ret r, log).
Proof.
  intros Hb Hs H. rewrite (check_after_resolution _ _ _ _ _ Hb).
  rewrite (probe_phase1_returned _ _ _ _ _ _ Hs H). reflexivity.
Qed.

(** C2: once the address is chosen and the settings are loaded, the
    health check decides: HTTP 200 gives [ready], and the health request
    is the only one sent; HTTP 503 gives [loading] with detail
    [model_loading] when the message read off the body contains
    "loading" or "initializing" in any letter case, and with detail
    [health_503: ] followed by the first 100 characters of the message
    otherwise; a timeout gives [loading] / [health_timeout]; a refused
    connection gives [loading] / [connection_refused]. *)
Theorem phase1_health_check w c s hp base st :
  run (resolve_base_url w c hp) = (Ret base, []) ->
  get_settings w = Ret st ->
  (forall resp,
      http_client w (health_request base) = Ret resp ->
      status_code resp = 200 ->
      run (check_model_readiness w c s hp) = (Ret ready, [health_request base])) /\
  (forall resp,
      http_client w (health_request base) = Ret resp ->
      status_code resp = 503 ->
      let msg := health_503_msg resp in
      (PyStr.contains "loading" (PyStr.lower msg)
       || PyStr.contains "initializing" (PyStr.lower msg) = true ->
       run (check_model_readiness w c s hp)
       = (Ret (loading "model_loading"), [health_request base])) /\
      (PyStr.contains "loading" (PyStr.lower msg)
       || PyStr.contains "initializing" (PyStr.lower msg) = false ->
       run (check_model_readiness w c s hp)
       = (Ret (loading ("health_503: " ++ PyStr.take 100 msg)), [health_request base]))) /\
  (forall e,
      http_client w (health_request base) = Raise e ->
      exc_cls e = TimeoutException ->
      run (check_model_readiness w c s hp)
      = (Ret (loading "health_timeout"), [health_request base])) /\
  (forall e,
      http_client w (health_request base) = Raise e ->
      exc_cls e = ConnectError ->
      run (check_model_readiness w c s hp)
      = (Ret (loading "connection_refused"), [health_request base])).
Proof.
  intros Hb Hs. split; [|split; [|split]].
  - intros resp H H200. eapply check_phase1_returned; eauto.
    rewrite (phase1_response _ _ _ _ H), H200. reflexivity.
  - intros resp H H503 msg.
    assert (Hp : phase1 w base [] =
                 (Ret (Returned
                         (if PyStr.contains "loading" (PyStr.lower msg)
                             || PyStr.contains "initializing" (PyStr.lower msg)
                          then loading "model_loading"
                          else loading ("health_503: " ++ PyStr.take 100 msg))),
                  [health_request base])).
    { rewrite (phase1_response _ _ _ _ H), H503. reflexivity. }
    split; intros Hk; rewrite Hk in Hp; eapply check_phase1_returned; eauto.
  - intros e H Hc. eapply check_phase1_returned; eauto.
    rewrite (phase1_exception _ _ _ _ H), Hc. reflexivity.
  - intros e H Hc. eapply check_phase1_returned; eauto.
    rewrite (phase1_exception _ _ _ _ H), Hc. reflexivity.
Qed.

Lemma phase1_health_check_witness :
  run (check_model_readiness
         (warming_world "{'detail': 'Loading model checkpoint shards'}"
                        (VDict [("detail", VStr "Loading model checkpoint shards")]))
         "vllm-model-7" "llama" None)
  = (Ret (loading "model_loading"), [health_request "http://vllm-model-7:8000"]).
Proof.
  pose proof (phase1_health_check
                (warming_world "{'detail': 'Loading model checkpoint shards'}"
                               (VDict [("detail", VStr "Loading model checkpoint shards")]))
                "vllm-model-7" "llama" None "http://vllm-model-7:8000" (mkSettings None)
                eq_refl eq_refl) as H.
  destruct H as (_ & H503 & _).
  exact (proj1 (H503 (mkResponse 503 "{'detail': 'Loading model checkpoint shards'}"
                                 (Ret (VDict [("detail", VStr "Loading model checkpoint shards")])))
                     eq_refl eq_refl) eq_refl).
Defined.

Example health_200_ready :
  run (check_model_readiness
         (bridge_world [("http://vllm-model-7:8000/health", plain_response 200 "")])
         "vllm-model-7" "llama" None)
  = (Ret ready, [health_request "http://vllm-model-7:8000"]).
Proof. reflexivity. Qed.

Example health_503_initializing :
  fst (run (check_model_readiness
              (warming_world "{'error': 'initializing'}" (VDict [("error", VStr "initializing")]))
              "vllm-model-7" "llama" None))
  = Ret (loading "model_loading").
Proof. reflexivity. Qed.

Example health_503_other :
  fst (run (check_model_readiness
              (warming_world "{'message': 'Out of memory'}"
                             (VDict [("message", VStr "Out of memory")]))
              "vllm-model-7" "llama" None))
  = Ret (loading "health_503: Out of memory").
Proof. reflexivity. Qed.

Example health_503_plain_text :
  fst (run (check_model_readiness
              (bridge_world [("http://vllm-model-7:8000/health",
                               plain_response 503 "Service Unavailable")])
              "vllm-model-7" "llama" None))
  = Ret (loading "health_503: Service Unavailable").
Proof. reflexivity. Qed.

Example health_timeout :
  fst (run (check_model_readiness
              (bridge_world [("http://vllm-model-7:8000/health",
                               Raise (mkExc TimeoutException "timed out"))])
              "vllm-model-7" "llama" None))
  = Ret (loading "health_timeout").
Proof. reflexivity. Qed.

Example health_connection_refused :
  run (check_model_readiness (bridge_world []) "vllm-model-7" "llama" None)
  = (Ret (loading "connection_refused"), [health_request "http://vllm-model-7:8000"]).
Proof. reflexivity. Qed.

(** ** Phase 2: the model listing *)

Lemma phase1_inconclusive w base log :
  health_inconclusive w base ->
  phase1 w base log = (Ret FellThrough, (log ++ [health_request base])%list).
Proof.
  unfold health_inconclusive.
  destruct (http_client w (health_request base)) as [resp|e] eqn:E.
  - intros [H2 H5]. rewrite (phase1_response _ _ _ _ E).
    apply Z.eqb_neq in H2, H5. rewrite H2, H5. reflexivity.
  - intros [Ht Hc]. rewrite (phase1_exception _ _ _ _ E).
    destruct (exc_cls e); congruence.
Qed.

Lemma find_model_listed s models :
  find_model s models = Ret true -> listed s models.
Proof.
  induction models as [|m rest IH]; simpl; [discriminate|].
  unfold rbind. destruct (Py.get m "id") as [id|e] eqn:E; [|discriminate].
  destruct id as [| | | |t| |]; simpl; try (intros H; destruct (IH H) as (x & Hx & Hid);
    exists x; split; [right|]; assumption).
  destruct (String.eqb t s) eqn:Et.
  - intros _. apply String.eqb_eq in Et. subst t. exists m. split; [left; reflexivity|assumption].
  - intros H. destruct (IH H) as (x & Hx & Hid). exists x. split; [right|]; assumption.
Qed.

(** A decoded listing is classified by whether it is empty. *)
Lemma models_200_list resp s entries models :
  json resp = Ret (VDict entries) ->
  Py.lookup "data" entries = Some (VList models) ->
  models_200 resp s = match models with
                      | [] => loading "models_list_empty"
                      | _ => ready
                      end.
Proof.
  intros Hj Hd. unfold models_200. rewrite Hj. simpl. rewrite Hd. simpl.
  destruct models as [|m rest]; [reflexivity|].
  destruct (find_model s (m :: rest)) as [[]|e]; reflexivity.
Qed.

Lemma models_503_exception resp e :
  models_503 resp = Raise e ->
  exc_cls e <> TimeoutException /\ exc_cls e <> ConnectError.
Proof.
  unfold models_503, rbind.
  destruct (models_503_msg resp); simpl; repeat break_if;
    intros H; inv H; split; discriminate.
Qed.

Lemma phase2_response w base key s log resp :
  http_client w (models_request base key) = Ret resp ->
  status_code resp = 200 ->
  phase2 w base key s log =
  (Ret (Returned (models_200 resp s)), (log ++ [models_request base key])%list).
Proof.
  intros H H2. unfold phase2. unfold_monad. unfold models_request in H.
  rewrite H, H2. reflexivity.
Qed.

Lemma phase2_inconclusive w base key s log :
  models_inconclusive w base key ->
  phase2 w base key s log = (Ret FellThrough, (log ++ [models_request base key])%list).
Proof.
  unfold models_inconclusive.
  destruct (http_client w (models_request base key)) as [resp|e] eqn:E;
    unfold phase2; unfold_monad; unfold models_request in E; rewrite E.
  - intros [H2 H5]. apply Z.eqb_neq in H2. rewrite H2.
    destruct (status_code resp =? 503) eqn:E5; [|reflexivity].
    apply Z.eqb_eq in E5. destruct (H5 E5) as (e & He). rewrite He.
    destruct (models_503_exception _ _ He) as [Ht Hc].
    destruct (exc_cls e); first [reflexivity | congruence].
  - intros [Ht Hc]. destruct (exc_cls e); first [reflexivity | congruence].
Qed.

Lemma probe_phase2_returned w base s st r log :
  get_settings w = Ret st ->
  health_inconclusive w base ->
  phase2 w base (api_key_of st) s [health_request base] = (Ret (Returned r), log) ->
  run (probe w base s) = (Ret r, log).
Proof.
  intros Hs H1 H. unfold probe, run. unfold bind at 1. unfold lift. rewrite Hs.
  unfold bind at 1. rewrite (phase1_inconclusive _ _ _ H1). simpl.
  unfold bind at 1. rewrite H. reflexivity.
Qed.

Lemma check_models_200 w c s hp base st resp :
  run (resolve_base_url w c hp) = (Ret base, []) ->
  get_settings w = Ret st ->
  health_inconclusive w base ->
  http_client w (models_request base (api_key_of st)) = Ret resp ->
  status_code resp = 200 ->
  run (check_model_readiness w c s hp)
  = (Ret (models_200 resp s),
     [health_request base; models_request base (api_key_of st)]).
Proof.
  intros Hb Hs H1 H H2. rewrite (check_after_resolution _ _ _ _ _ Hb).
  erewrite probe_phase2_returned; eauto.
  rewrite (phase2_response _ _ _ _ _ _ H H2). reflexivity.
Qed.

(** C4: when phase 1 is inconclusive and the listing endpoint answers
    HTTP 200 with a list of models: the result is [ready] if the served
    model's identifier appears in the list, [loading] with detail
    [models_list_empty] if the list is empty, and [ready] if the list is
    nonempty without the identifier.  Two requests were sent. *)
Theorem phase2_model_listing w c s hp base st resp entries models :
  run (resolve_base_url w c hp) = (Ret base, []) ->
  get_settings w = Ret st ->
  health_inconclusive w base ->
  http_client w (models_request base (api_key_of st)) = Ret resp ->
  status_code resp = 200 ->
  json resp = Ret (VDict entries) ->
  Py.lookup "data" entries = Some (VList models) ->
  (listed s models ->
   run (check_model_readiness w c s hp)
   = (Ret ready, [health_request base; models_request base (api_key_of st)])) /\
  (models = [] ->
   run (check_model_readiness w c s hp)
   = (Ret (loading "models_list_empty"),
      [health_request base; models_request base (api_key_of st)])) /\
  (models <> [] -> ~ listed s models ->
   run (check_model_readiness w c s hp)
   = (Ret ready, [health_request base; models_request base (api_key_of st)])).
Proof.
  intros Hb Hs H1 H H2 Hj Hd.
  rewrite (check_models_200 _ _ _ _ _ _ _ Hb Hs H1 H H2).
  rewrite (models_200_list _ _ _ _ Hj Hd).
  split; [|split].
  - intros (m & Hin & _). destruct models; [destruct Hin|reflexivity].
  - intros ->. reflexivity.
  - intros Hne _. destruct models; [congruence|reflexivity].
Qed.

Lemma phase2_model_listing_witness :
  run (check_model_readiness
         (listing_world (json_response 200 "{'data': [{'id': 'llama'}]}"
                           (VDict [("data", VList [VDict [("id", VStr "llama")]])])))
         "vllm-model-7" "llama" None)
  = (Ret ready, [health_request "http://vllm-model-7:8000";
                 models_request "http://vllm-model-7:8000" "dev-internal-token"]).
Proof.
  refine (proj1 (phase2_model_listing
                   (listing_world (json_response 200 "{'data': [{'id': 'llama'}]}"
                                     (VDict [("data", VList [VDict [("id", VStr "llama")]])])))
                   "vllm-model-7" "llama" None "http://vllm-model-7:8000" (mkSettings None)
                   (mkResponse 200 "{'data': [{'id': 'llama'}]}"
                      (Ret (VDict [("data", VList [VDict [("id", VStr "llama")]])])))
                   [("data", VList [VDict [("id", VStr "llama")]])]
                   [VDict [("id", VStr "llama")]]
                   eq_refl eq_refl _ eq_refl eq_refl eq_refl eq_refl) _).
  - unfold health_inconclusive. simpl. split; discriminate.
  - exists (VDict [("id", VStr "llama")]). split; [left|]; reflexivity.
Defined.

Example listing_empty :
  fst (run (check_model_readiness
              (listing_world (json_response 200 "{'data': []}" (VDict [("data", VList [])])))
              "vllm-model-7" "llama" None))
  = Ret (loading "models_list_empty").
Proof. reflexivity. Qed.

Example listing_other_model :
  fst (run (check_model_readiness
              (listing_world (json_response 200 "{'data': [{'id': 'mistral'}]}"
                                (VDict [("data", VList [VDict [("id", VStr "mistral")]])])))
              "vllm-model-7" "llama" None))
  = Ret ready.
Proof. reflexivity. Qed.

Lemma models_200_undecodable resp s e :
  json resp = Raise e -> models_200 resp s = ready.
Proof. intros H. unfold models_200. rewrite H. reflexivity. Qed.

Lemma models_200_untraversable resp s data e :
  json resp = Ret data ->
  (let? models := Py.get_default data "data" (VList []) in
   let? items := Py.iter models in
   find_model s items) = Raise e ->
  models_200 resp s = ready.
Proof.
  intros Hj. unfold models_200. rewrite Hj. simpl.
  unfold rbind. destruct (Py.get_default data "data" (VList [])) as [models|]; [|reflexivity].
  destruct (Py.iter models) as [items|]; [|reflexivity].
  intros ->. reflexivity.
Qed.

(** C10: when phase 1 is inconclusive and the listing endpoint answers
    HTTP 200 with a body that does not decode as JSON, or a decoded body
    whose [data] cannot be traversed (the body is not an object, [data]
    is not iterable, or an element met before the served model is not
    an object), the result is [ready]. *)
Theorem phase2_undecodable_listing w c s hp base st resp :
  run (resolve_base_url w c hp) = (Ret base, []) ->
  get_settings w = Ret st ->
  health_inconclusive w base ->
  http_client w (models_request base (api_key_of st)) = Ret resp ->
  status_code resp = 200 ->
  (exists e, json resp = Raise e) \/
  (exists data e,
      json resp = Ret data /\
      (let? models := Py.get_default data "data" (VList []) in
       let? items := Py.iter models in
       find_model s items) = Raise e) ->
  run (check_model_readiness w c s hp)
  = (Ret ready, [health_request base; models_request base (api_key_of st)]).
Proof.
  intros Hb Hs H1 H H2 Hbody.
  rewrite (check_models_200 _ _ _ _ _ _ _ Hb Hs H1 H H2).
  destruct Hbody as [(e & Hj)|(data & e & Hj & Ht)].
  - rewrite (models_200_undecodable _ _ _ Hj). reflexivity.
  - rewrite (models_200_untraversable _ _ _ _ Hj Ht). reflexivity.
Qed.

Lemma phase2_undecodable_listing_witness :
  run (check_model_readiness (listing_world (plain_response 200 "<html>OK</html>"))
                             "vllm-model-7" "llama" None)
  = (Ret ready, [health_request "http://vllm-model-7:8000";
                 models_request "http://vllm-model-7:8000" "dev-internal-token"]).
Proof.
  refine (phase2_undecodable_listing
            (listing_world (plain_response 200 "<html>OK</html>"))
            "vllm-model-7" "llama" None "http://vllm-model-7:8000" (mkSettings None)
            (mkResponse 200 "<html>OK</html>" not_json)
            eq_refl eq_refl _ eq_refl eq_refl _).
  - unfold health_inconclusive. simpl. split; discriminate.
  - left. eexists. reflexivity.
Defined.

(** what cannot be traversed: [null] data, a body that is a list, an
    element that is a string *)
Example untraversable_listings :
  (let? models := Py.get_default (VDict [("data", VNone)]) "data" (VList []) in
   let? items := Py.iter models in find_model "llama" items)
  = Raise (mkExc TypeError "'NoneType' object is not iterable") /\
  (let? models := Py.get_default (VList []) "data" (VList []) in
   let? items := Py.iter models in find_model "llama" items)
  = Raise (mkExc AttributeError "'list' object has no attribute 'get'") /\
  (let? models := Py.get_default (VDict [("data", VList [VStr "llama"])]) "data" (VList []) in
   let? items := Py.iter models in find_model "llama" items)
  = Raise (mkExc AttributeError "'str' object has no attribute 'get'").
Proof. repeat split. Qed.

Example listing_null_data :
  fst (run (check_model_readiness
              (listing_world (json_response 200 "{'data': null}" (VDict [("data", VNone)])))
              "vllm-model-7" "llama" None))
  = Ret ready.
Proof. reflexivity. Qed.

(** ** Phase 3: the generation probe *)

Lemma probe_phase3 w base s st :
  get_settings w = Ret st ->
  health_inconclusive w base ->
  models_inconclusive w base (api_key_of st) ->
  run (probe w base s)
  = phase3 w base (api_key_of st) s
           [health_request base; models_request base (api_key_of st)].
Proof.
  intros Hs H1 H2. unfold probe, run. unfold bind at 1. unfold lift. rewrite Hs.
  unfold bind at 1. rewrite (phase1_inconclusive _ _ _ H1). simpl.
  unfold bind at 1. rewrite (phase2_inconclusive _ _ _ _ _ H2). reflexivity.
Qed.

Lemma phase3_response w base key s log resp :
  http_client w (generation_request base key s) = Ret resp ->
  phase3 w base key s log =
  (if status_code resp =? 200 then Ret ready
   else if status_code resp =? 503 then chat_503 resp
        else Ret (error ("HTTP " ++ PyStr.of_int (status_code resp))),
   (log ++ [generation_request base key s])%list).
Proof.
  intros H. unfold phase3. unfold_monad. unfold generation_request in H. rewrite H.
  repeat break_if; reflexivity.
Qed.







Example generation_200 :
  fst (run (check_model_readiness (generation_world (plain_response 200 "{}"))
                                  "vllm-model-7" "llama" None))
  = Ret ready.
Proof. reflexivity. Qed.

Example generation_503_other :
  fst (run (check_model_readiness
              (generation_world
                 (json_response 503 "{'error': {'message': 'CUDA out of memory'}}"
                    (VDict [("error", VDict [("message", VStr "CUDA out of memory")])])))
              "vllm-model-7" "llama" None))
  = Ret (error "503: CUDA out of memory").
Proof. reflexivity. Qed.

(** the test of phase 3 is the exact text: a lower-case "loading" is an
    error here, where phase 2 reports [loading] for the same body *)
Example generation_503_lowercase :
  fst (run (check_model_readiness
              (generation_world
                 (json_response 503 "{'error': {'message': 'model is loading'}}"
                    (VDict [("error", VDict [("message", VStr "model is loading")])])))
              "vllm-model-7" "llama" None))
  = Ret (error "503: model is loading") /\
  fst (run (check_model_readiness
              (listing_world
                 (json_response 503 "{'error': {'message': 'model is loading'}}"
                    (VDict [("error", VDict [("message", VStr "model is loading")])])))
              "vllm-model-7" "llama" None))
  = Ret (loading "loading_model").
Proof. split; reflexivity. Qed.

Example generation_503_null_message :
  fst (run (check_model_readiness
              (generation_world
                 (json_response 503 "{'error': {'message': null}}"
                    (VDict [("error", VDict [("message", VNone)])])))
              "vllm-model-7" "llama" None))
  = Ret (error "argument of type 'NoneType' is not iterable").
Proof. reflexivity. Qed.

Example generation_404 :
  fst (run (check_model_readiness (generation_world (plain_response 404 "Not Found"))
                                  "vllm-model-7" "llama" None))
  = Ret (error "HTTP 404").
Proof. reflexivity. Qed.

(** ** Reading the message off an error body *)

(** C6, as stated, fails: there is no shared routine, and the four sites
    do not compute the same function.  On a body whose message sits
    under [detail], phase 1 finds it, as the normalizer of the
    specification would; the chat test and phases 2 and 3 find nothing. *)
Lemma extraction_sites_disagree :
  ProbeError_normalizer detail_body = "model is loading" /\
  health_503_msg detail_response = "model is loading" /\
  chat_test_msg detail_response = Ret "" /\
  models_503_msg detail_response = VStr "" /\
  chat_503_msg detail_response = VStr "" /\
  ~ (forall resp body,
        json resp = Ret body ->
        chat_test_msg resp = Ret (ProbeError_normalizer body) /\
        health_503_msg resp = ProbeError_normalizer body /\
        models_503_msg resp = VStr (ProbeError_normalizer body) /\
        chat_503_msg resp = VStr (ProbeError_normalizer body)).
Proof.
  repeat (split; [reflexivity|]).
  intros H. destruct (H detail_response detail_body eq_refl) as (Hc & _).
  vm_compute in Hc. discriminate.
Qed.

Ltac case_truthy :=
  repeat first
    [ progress (change (Py.truthy VNone) with false; cbv iota)
    | match goal with
      | E : Py.truthy ?v = _ |- context [Py.truthy ?v] => rewrite E; cbv iota
      end
    | match goal with
      | |- context [Py.truthy ?v] => is_var v; destruct (Py.truthy v) eqn:?; cbv iota
      end ].

Ltac case_lookup entries :=
  repeat match goal with
         | |- context [Py.lookup ?k entries] => destruct (Py.lookup k entries)
         end.

Lemma chat_test_msg_object resp entries :
  json resp = Ret (VDict entries) ->
  chat_test_msg resp
  = Ret (PyStr.lower (Py.str (first_truthy ["message"; "error"] entries))).
Proof.
  intros H. unfold chat_test_msg. rewrite H.
  cbn [rbind Py.get Py.get_default first_truthy]. unfold Py.or_.
  case_lookup entries; case_truthy; reflexivity.
Qed.

Lemma health_503_msg_object resp entries :
  json resp = Ret (VDict entries) ->
  health_503_msg resp = Py.str (first_truthy ["detail"; "error"; "message"] entries).
Proof.
  intros H. unfold health_503_msg. rewrite H.
  cbn [rbind Py.get Py.get_default first_truthy]. unfold Py.or_.
  case_lookup entries; case_truthy; reflexivity.
Qed.

Lemma or_empty_dict entries : Py.or_ (VDict entries) (VDict []) = VDict entries.
Proof. destruct entries; reflexivity. Qed.

Lemma models_503_msg_object resp entries :
  json resp = Ret (VDict entries) ->
  models_503_msg resp
  = match Py.lookup "error" entries with
    | None => VStr ""
    | Some (VDict e) => match Py.lookup "message" e with
                        | Some m => m
                        | None => VStr ""
                        end
    | Some _ => VStr (PyStr.take 200 (text resp))
    end.
Proof.
  intros H. unfold models_503_msg. rewrite H.
  cbn [rbind]. rewrite or_empty_dict. cbn [Py.get_default].
  destruct (Py.lookup "error" entries) as [[]|]; reflexivity.
Qed.

(** C6 (amended): each site reads the message by its own expression.
    On a body that decodes to an object, the chat test takes the first
    truthy value among [message], [error], as lower-cased text; phase 1
    takes the first truthy value among [detail], [error], [message], as
    text; both yield the empty string when none is truthy.  Phases 2 and
    3 compute one and the same function of the response: on an object,
    the [message] entry of its [error] object (the empty string when
    [error] or [message] is missing), and the first 200 characters of
    the raw body when [error] is not an object.  When the body does not
    decode, phases 1, 2 and 3 take the first 200 characters of the raw
    body, and the chat test finds no message. *)
Theorem error_extraction_per_site resp :
  (forall entries,
      json resp = Ret (VDict entries) ->
      chat_test_msg resp
      = Ret (PyStr.lower (Py.str (first_truthy ["message"; "error"] entries))) /\
      health_503_msg resp
      = Py.str (first_truthy ["detail"; "error"; "message"] entries) /\
      models_503_msg resp
      = match Py.lookup "error" entries with
        | None => VStr ""
        | Some (VDict e) => match Py.lookup "message" e with
                            | Some m => m
                            | None => VStr ""
                            end
        | Some _ => VStr (PyStr.take 200 (text resp))
        end) /\
  (forall e,
      json resp = Raise e ->
      chat_test_msg resp = Raise e /\
      health_503_msg resp = PyStr.take 200 (text resp) /\
      models_503_msg resp = VStr (PyStr.take 200 (text resp))) /\
  models_503_msg resp = chat_503_msg resp.
Proof.
  split; [|split].
  - intros entries H. split; [|split].
    + apply chat_test_msg_object, H.
    + apply health_503_msg_object, H.
    + apply models_503_msg_object, H.
  - intros e H. unfold chat_test_msg, health_503_msg, models_503_msg.
    rewrite H. repeat split.
  - reflexivity.
Qed.

Lemma error_extraction_per_site_witness :
  chat_test_msg detail_response = Ret "" /\
  health_503_msg detail_response = "model is loading" /\
  models_503_msg detail_response = VStr "".
Proof.
  exact (proj1 (error_extraction_per_site detail_response)
               [("detail", VStr "model is loading")] eq_refl).
Defined.

Example chat_test_msg_nested_error :
  chat_test_msg (mkResponse 400 ""
                   (Ret (VDict [("error", VDict [("message", VStr "No Chat Template")])])))
  = Ret "{'message': 'no chat template'}".
Proof. reflexivity. Qed.

(** ** The chat test *)

Lemma format_messages_lines (msgs : list (string * string)) :
  format_messages (map (fun m => chat_message (fst m) (snd m)) msgs)
  = Ret (map prompt_line msgs).
Proof.
  induction msgs as [|[role content] rest IH]; [reflexivity|].
  cbn [map format_messages fst snd]. rewrite IH. reflexivity.
Qed.

(** every message becomes one line, in order, then the cue *)
Lemma build_prompt_lines (msgs : list (string * string)) :
  build_prompt (VList (map (fun m => chat_message (fst m) (snd m)) msgs))
  = Ret (PyStr.join (PyStr.nl ++ PyStr.nl) (map prompt_line msgs)
           ++ PyStr.nl ++ PyStr.nl ++ "Assistant:").
Proof.
  unfold build_prompt. cbn [Py.iter rbind]. rewrite format_messages_lines. reflexivity.
Qed.

Lemma completion_request_fixed model :
  completion_request model (chat_request_data model)
  = Ret (VDict [("model", VStr model);
                ("prompt", VStr ("User: Hello" ++ PyStr.nl ++ PyStr.nl ++ "Assistant:"));
                ("max_tokens", VInt 50);
                ("temperature", VFloat "0.7")]).
Proof. reflexivity. Qed.

Lemma chat_fallback_steps w base model key log :
  chat_fallback w base model (test_headers key) (chat_request_data model) log
  = (match http_client w (completion_http_request base model key) with
     | Ret cresp =>
         if 400 <=? status_code cresp then Raise (http_error cresp)
         else let? comp_data := json cresp in
              let? response_data := to_chat_format model comp_data in
              Ret (test_result (chat_request_data model) response_data)
     | Raise e => Raise e
     end,
     (log ++ [completion_http_request base model key])%list).
Proof.
  unfold chat_fallback. unfold bind at 1. unfold lift at 1.
  rewrite completion_request_fixed. unfold_monad.
  fold (completion_http_request base model key).
  destruct (http_client w (completion_http_request base model key)) as [cresp|e];
    [|reflexivity].
  destruct (400 <=? status_code cresp); [reflexivity|].
  destruct (json cresp) as [d|e]; [|reflexivity]. simpl rbind.
  destruct (to_chat_format model d); reflexivity.
Qed.

Lemma test_chat_model_error w base model key resp :
  http_client w (chat_request base model key) = Ret resp ->
  400 <= status_code resp ->
  run (test_chat_model w base model key)
  = match chat_test_msg resp with
    | Ret msg =>
        if PyStr.contains "chat template" msg
        then match chat_fallback w base model (test_headers key) (chat_request_data model)
                                 [chat_request base model key] with
             | (Ret res, log) => (Ret res, log)
             | (Raise _, log) => (Raise (original_error resp), log)
             end
        else (Raise (original_error resp), [chat_request base model key])
    | Raise _ => (Raise (original_error resp), [chat_request base model key])
    end.
Proof.
  intros H Hs. apply Z.leb_le in Hs.
  unfold test_chat_model, run. cbv zeta. unfold bind at 1. unfold http_post at 1, send.
  fold (chat_request base model key). rewrite H. cbn [app]. rewrite Hs.
  unfold bind at 1, try_except. unfold bind at 1, lift at 1.
  destruct (chat_test_msg resp) as [msg|e]; [|reflexivity].
  destruct (PyStr.contains "chat template" msg); [|reflexivity].
  unfold bind at 1.
  destruct (chat_fallback w base model (test_headers key) (chat_request_data model)
                          [chat_request base model key]) as [[res|e] log]; reflexivity.
Qed.

Lemma to_chat_format_object model entries choice rest :
  Py.lookup "choices" entries = Some (VList (VDict choice :: rest)) ->
  to_chat_format model (VDict entries) = Ret (normalized_response model entries choice).
Proof.
  intros H. unfold to_chat_format, normalized_response, entry_or.
  cbn [rbind Py.get Py.get_default]. rewrite H. reflexivity.
Qed.

Lemma normalized_content model entries choice :
  message_content (normalized_response model entries choice)
  = Ret (entry_or "text" choice (VStr "")).
Proof. reflexivity. Qed.

(** C1, as stated, fails: the chat test reads the message only from the
    keys [message] and [error] of a JSON object.  An error that tells of
    the absent chat template elsewhere, under [detail] or in a body that
    is not JSON, is not retried: the original error is raised after the
    single chat request. *)
Lemma chat_template_elsewhere_not_retried :
  PyStr.contains "chat template" (ProbeError_normalizer template_detail_body) = true /\
  run (test_chat_model
         (bridge_world [("http://vllm-model-7:8000/v1/chat/completions",
                          Ret template_detail_response)])
         "http://vllm-model-7:8000" "llama" "")
  = (Raise (mkExc Exception
                  "Model returned HTTP 400: {'detail': 'model has no chat template'}"),
     [chat_request "http://vllm-model-7:8000" "llama" ""]) /\
  PyStr.contains "chat template" (text template_plain_response) = true /\
  run (test_chat_model
         (bridge_world [("http://vllm-model-7:8000/v1/chat/completions",
                          Ret template_plain_response)])
         "http://vllm-model-7:8000" "llama" "")
  = (Raise (mkExc Exception
                  "Model returned HTTP 400: Cannot use chat template: none is set"),
     [chat_request "http://vllm-model-7:8000" "llama" ""]).
Proof. repeat split. Qed.

(** C1 (amended): when the chat-completion request is answered with an
    error status.  (1) A prompt is built from messages by joining the
    lines ["<Role>: <content>"], role title-cased, in order, and ending
    with the cue ["Assistant:"].  (2) If the message read off the error
    body does not contain "chat template" (or no message can be read),
    the original error is raised, status code and first 200 characters
    of the body, and nothing else is sent.  (3) If it does, a completion
    request is sent with the prompt built from the chat request's
    messages, and with the [max_tokens], [temperature] and headers of
    the chat request; when it is answered without error status by an
    object whose first choice is an object, the result is the
    chat-shaped response with one choice, whose message has role
    [assistant] and the completion's text as content; when the retry
    raises or is answered with an error status, the original error is
    raised.  (4) In every case the call either returns or raises the
    original error.  (5) The message read is the first truthy value
    among the keys [message], [error] of a body that decodes to an
    object, as lower-cased text, the empty string when neither is
    truthy; no message is read off any other body. *)
Theorem chat_template_fallback w base model key resp :
  http_client w (chat_request base model key) = Ret resp ->
  400 <= status_code resp ->
  (forall msgs : list (string * string),
      build_prompt (VList (map (fun m => chat_message (fst m) (snd m)) msgs))
      = Ret (PyStr.join (PyStr.nl ++ PyStr.nl) (map prompt_line msgs)
               ++ PyStr.nl ++ PyStr.nl ++ "Assistant:")) /\
  ((forall msg, chat_test_msg resp = Ret msg -> PyStr.contains "chat template" msg = false) ->
   run (test_chat_model w base model key)
   = (Raise (original_error resp), [chat_request base model key])) /\
  (forall msg,
      chat_test_msg resp = Ret msg ->
      PyStr.contains "chat template" msg = true ->
      snd (run (test_chat_model w base model key))
      = [chat_request base model key; completion_http_request base model key] /\
      (exists comp,
          req_json (completion_http_request base model key) = Some comp /\
          Py.get comp "prompt"
          = Ret (VStr (PyStr.join (PyStr.nl ++ PyStr.nl) (map prompt_line [("user", "Hello")])
                         ++ PyStr.nl ++ PyStr.nl ++ "Assistant:")) /\
          Py.get comp "max_tokens" = Py.get (chat_request_data model) "max_tokens" /\
          Py.get comp "temperature" = Py.get (chat_request_data model) "temperature" /\
          req_headers (completion_http_request base model key)
          = req_headers (chat_request base model key)) /\
      (forall cresp entries choice rest,
          http_client w (completion_http_request base model key) = Ret cresp ->
          status_code cresp < 400 ->
          json cresp = Ret (VDict entries) ->
          Py.lookup "choices" entries = Some (VList (VDict choice :: rest)) ->
          fst (run (test_chat_model w base model key))
          = Ret (test_result (chat_request_data model)
                             (normalized_response model entries choice)) /\
          message_content (normalized_response model entries choice)
          = Ret (entry_or "text" choice (VStr ""))) /\
      ((exists e, http_client w (completion_http_request base model key) = Raise e) \/
       (exists cresp, http_client w (completion_http_request base model key) = Ret cresp /\
                      400 <= status_code cresp) ->
       fst (run (test_chat_model w base model key)) = Raise (original_error resp))) /\
  (forall res log,
      run (test_chat_model w base model key) = (res, log) ->
      (exists v, res = Ret v) \/ res = Raise (original_error resp)) /\
  (forall entries,
      json resp = Ret (VDict entries) ->
      chat_test_msg resp
      = Ret (PyStr.lower (Py.str (first_truthy ["message"; "error"] entries)))) /\
  ((forall entries, json resp <> Ret (VDict entries)) ->
   exists e, chat_test_msg resp = Raise e).
Proof.
  intros H Hs. rewrite (test_chat_model_error _ _ _ _ _ H Hs).
  split; [exact build_prompt_lines|]. split; [|split; [|split; [|split]]].
  - intros Hno. destruct (chat_test_msg resp) as [msg|e]; [|reflexivity].
    rewrite (Hno msg eq_refl). reflexivity.
  - intros msg Hm Hc. rewrite Hm, Hc. rewrite chat_fallback_steps. cbn [app].
    split; [|split; [|split]].
    + destruct (http_client w (completion_http_request base model key)) as [cresp|e];
        [|reflexivity].
      destruct (400 <=? status_code cresp); [reflexivity|].
      destruct (json cresp) as [d|e]; [|reflexivity]. cbn [rbind].
      destruct (to_chat_format model d); reflexivity.
    + eexists. repeat split.
    + intros cresp entries choice rest Hr Hok Hj Hch. rewrite Hr.
      apply Z.leb_gt in Hok. rewrite Hok, Hj. cbn [rbind].
      rewrite (to_chat_format_object _ _ _ _ Hch). split; reflexivity.
    + intros [(e & He)|(cresp & Hr & Hbad)].
      * rewrite He. reflexivity.
      * rewrite Hr. apply Z.leb_le in Hbad. rewrite Hbad. reflexivity.
  - intros res log.
    destruct (chat_test_msg resp) as [msg|e].
    + destruct (PyStr.contains "chat template" msg).
      * destruct (chat_fallback w base model (test_headers key) (chat_request_data model)
                                [chat_request base model key]) as [[v|e] l];
          intros Heq; inv Heq; [left; eexists; reflexivity|right; reflexivity].
      * intros Heq; inv Heq. right; reflexivity.
    + intros Heq; inv Heq. right; reflexivity.
  - intros entries Hj. apply chat_test_msg_object, Hj.
  - intros Hn. unfold chat_test_msg.
    destruct (json resp) as [body|e]; [|eexists; reflexivity].
    destruct body; try (eexists; reflexivity).
    exfalso. eapply Hn. reflexivity.
Qed.

Lemma chat_template_fallback_witness :
  fst (run (test_chat_model (templateless_world (Ret completion_ok))
                            "http://vllm-model-7:8000" "llama" ""))
  = Ret (test_result (chat_request_data "llama")
           (normalized_response "llama"
              [("choices", VList [VDict [("text", VStr "ok")]]);
               ("usage", VDict [("total_tokens", VInt 5)])]
              [("text", VStr "ok")])) /\
  message_content
    (normalized_response "llama"
       [("choices", VList [VDict [("text", VStr "ok")]]);
        ("usage", VDict [("total_tokens", VInt 5)])]
       [("text", VStr "ok")])
  = Ret (entry_or "text" [("text", VStr "ok")] (VStr "")).
Proof.
  pose proof (chat_template_fallback (templateless_world (Ret completion_ok))
                "http://vllm-model-7:8000" "llama" "" templateless_answer eq_refl)
    as H.
  assert (Hs : 400 <= status_code templateless_answer) by (simpl; lia).
  destruct (H Hs) as (_ & _ & Hfallback & _).
  destruct (Hfallback "no chat template configured" eq_refl eq_refl) as (_ & _ & Hok & _).
  refine (Hok completion_ok _ [("text", VStr "ok")] [] eq_refl _ eq_refl eq_refl).
  simpl; lia.
Defined.

Example chat_fallback_scenario :
  run (test_chat_model (templateless_world (Ret completion_ok))
                       "http://vllm-model-7:8000" "llama" "")
  = (Ret (test_result
            (chat_request_data "llama")
            (VDict [("id", VNone);
                    ("object", VStr "chat.completion");
                    ("created", VNone);
                    ("model", VStr "llama");
                    ("choices",
                      VList [VDict [("index", VInt 0);
                                    ("message", VDict [("role", VStr "assistant");
                                                       ("content", VStr "ok")]);
                                    ("finish_reason", VNone)]]);
                    ("usage", VDict [("total_tokens", VInt 5)])])),
     [chat_request "http://vllm-model-7:8000" "llama" "";
      completion_http_request "http://vllm-model-7:8000" "llama" ""]).
Proof. reflexivity. Qed.

Example chat_fallback_hi_there :
  (let? res := fst (run (test_chat_model
                           (templateless_world
                              (json_response 200 "{'choices': [{'text': 'Hi there'}]}"
                                 (VDict [("choices", VList [VDict [("text", VStr "Hi there")]])])))
                           "http://vllm-model-7:8000" "llama" "")) in
   let? response_data := Py.get res "response" in
   message_content response_data)
  = Ret (VStr "Hi there").
Proof. reflexivity. Qed.

Example chat_fallback_retry_fails :
  fst (run (test_chat_model
              (templateless_world (plain_response 500 "Internal Server Error"))
              "http://vllm-model-7:8000" "llama" ""))
  = Raise (mkExc Exception
                 "Model returned HTTP 400: {'message': 'no chat template configured'}").
Proof. reflexivity. Qed.

Example chat_fallback_empty_choices :
  fst (run (test_chat_model
              (templateless_world
                 (json_response 200 "{'choices': []}" (VDict [("choices", VList [])])))
              "http://vllm-model-7:8000" "llama" ""))
  = Raise (mkExc Exception
                 "Model returned HTTP 400: {'message': 'no chat template configured'}").
Proof. reflexivity. Qed.

Example chat_error_under_detail :
  run (test_chat_model
         (bridge_world
            [("http://vllm-model-7:8000/v1/chat/completions",
               json_response 400 "{'detail': 'no chat template'}"
                             (VDict [("detail", VStr "no chat template")]))])
         "http://vllm-model-7:8000" "llama" "")
  = (Raise (mkExc Exception "Model returned HTTP 400: {'detail': 'no chat template'}"),
     [chat_request "http://vllm-model-7:8000" "llama" ""]).
Proof. reflexivity. Qed.

Example prompt_two_messages :
  build_prompt (VList [chat_message "system" "Be brief"; chat_message "user" "Hello"])
  = Ret ("System: Be brief" ++ PyStr.nl ++ PyStr.nl ++ "User: Hello"
           ++ PyStr.nl ++ PyStr.nl ++ "Assistant:").
Proof. reflexivity. Qed.

(** ** Validation of successful answers *)

Lemma test_chat_model_success w base model key resp :
  http_client w (chat_request base model key) = Ret resp ->
  status_code resp < 400 ->
  run (test_chat_model w base model key)
  = (let? response_data := json resp in
     let? choices := Py.get response_data "choices" in
     if negb (Py.truthy choices)
     then Raise (mkExc Exception "Invalid response: missing 'choices' field")
     else Ret (test_result (chat_request_data model) response_data),
     [chat_request base model key]).
Proof.
  intros H Hs. apply Z.leb_gt in Hs.
  unfold test_chat_model, run. cbv zeta. unfold bind at 1. unfold http_post at 1, send.
  fold (chat_request base model key). rewrite H. cbn [app]. rewrite Hs.
  unfold_monad. destruct (json resp) as [d|e]; [|reflexivity]. cbn [rbind].
  destruct (Py.get d "choices") as [c|e]; [|reflexivity]. cbn [rbind].
  destruct (negb (Py.truthy c)); reflexivity.
Qed.

Lemma test_embedding_model_success w base model key resp :
  http_client w (embeddings_request base model key) = Ret resp ->
  status_code resp < 400 ->
  run (test_embedding_model w base model key)
  = (let? response_data := json resp in
     let? data := Py.get response_data "data" in
     if negb (Py.truthy data) || negb (Py.is_list data)
     then Raise (mkExc Exception "Invalid response: missing or invalid 'data' field")
     else let? item := Py.first data in
          let? embedding := Py.get item "embedding" in
          if negb (Py.truthy embedding)
          then Raise (mkExc Exception "Invalid response: missing 'embedding' in data")
          else Ret (test_result (embedding_request_data model) response_data),
     [embeddings_request base model key]).
Proof.
  intros H Hs. apply Z.leb_gt in Hs.
  unfold test_embedding_model, run. cbv zeta. unfold bind at 1. unfold http_post at 1, send.
  fold (embeddings_request base model key). rewrite H. cbn [app]. rewrite Hs.
  unfold_monad. destruct (json resp) as [d|e]; [|reflexivity]. cbn [rbind].
  destruct (Py.get d "data") as [c|e]; [|reflexivity]. cbn [rbind].
  destruct (negb (Py.truthy c) || negb (Py.is_list c)); [reflexivity|].
  destruct (Py.first c) as [item|e]; [|reflexivity]. cbn [rbind].
  destruct (Py.get item "embedding") as [em|e]; [|reflexivity]. cbn [rbind].
  destruct (negb (Py.truthy em)); reflexivity.
Qed.

Lemma get_object entries key : Py.get (VDict entries) key = Ret (entry_or key entries VNone).
Proof. reflexivity. Qed.

(** C8: an answer without error status that decodes to an object is
    still a failure when the expected fields are missing.  The chat test
    raises when [choices] is absent or empty (falsy).  The embeddings
    test raises when [data] is absent, empty or not a list, and when the
    first element of [data] has no (truthy) [embedding], or is not an
    object at all.  One request was sent in each case. *)
Theorem shape_violations_fail w base model key resp entries :
  status_code resp < 400 ->
  json resp = Ret (VDict entries) ->
  (http_client w (chat_request base model key) = Ret resp ->
   Py.truthy (entry_or "choices" entries VNone) = false ->
   run (test_chat_model w base model key)
   = (Raise (mkExc Exception "Invalid response: missing 'choices' field"),
      [chat_request base model key])) /\
  (http_client w (embeddings_request base model key) = Ret resp ->
   Py.truthy (entry_or "data" entries VNone) = false \/
   Py.is_list (entry_or "data" entries VNone) = false ->
   run (test_embedding_model w base model key)
   = (Raise (mkExc Exception "Invalid response: missing or invalid 'data' field"),
      [embeddings_request base model key])) /\
  (http_client w (embeddings_request base model key) = Ret resp ->
   forall item rest,
     Py.lookup "data" entries = Some (VList (item :: rest)) ->
     (forall fields, item = VDict fields ->
                     Py.truthy (entry_or "embedding" fields VNone) = false) ->
     exists e,
       run (test_embedding_model w base model key)
       = (Raise e, [embeddings_request base model key]) /\
       (forall fields, item = VDict fields ->
                       e = mkExc Exception "Invalid response: missing 'embedding' in data")).
Proof.
  intros Hs Hj. split; [|split].
  - intros H Hc. rewrite (test_chat_model_success _ _ _ _ _ H Hs), Hj.
    cbn [rbind]. rewrite get_object. cbn [rbind]. rewrite Hc. reflexivity.
  - intros H Hd. rewrite (test_embedding_model_success _ _ _ _ _ H Hs), Hj.
    cbn [rbind]. rewrite get_object. cbn [rbind].
    destruct Hd as [-> | ->]; [reflexivity|]. rewrite orb_true_r. reflexivity.
  - intros H item rest Hd He. rewrite (test_embedding_model_success _ _ _ _ _ H Hs), Hj.
    cbn [rbind]. rewrite get_object. cbn [rbind]. unfold entry_or. rewrite Hd.
    cbn [rbind Py.truthy Py.is_list negb orb Py.first].
    destruct item as [| | | | | |fields];
      try (eexists; split; [reflexivity|]; intros fields Hf; discriminate Hf).
    rewrite get_object. cbn [rbind]. rewrite (He fields eq_refl).
    eexists. split; reflexivity.
Qed.

Lemma shape_violations_fail_witness :
  run (test_chat_model (answering_world (VDict [("id", VStr "cmpl-1")]))
                       "http://vllm-model-7:8000" "llama" "")
  = (Raise (mkExc Exception "Invalid response: missing 'choices' field"),
     [chat_request "http://vllm-model-7:8000" "llama" ""]).
Proof.
  assert (Hs : status_code (mkResponse 200 "" (Ret (VDict [("id", VStr "cmpl-1")]))) < 400)
    by (simpl; lia).
  exact (proj1 (shape_violations_fail
                  (answering_world (VDict [("id", VStr "cmpl-1")]))
                  "http://vllm-model-7:8000" "llama" ""
                  (mkResponse 200 "" (Ret (VDict [("id", VStr "cmpl-1")])))
                  [("id", VStr "cmpl-1")] Hs eq_refl)
               eq_refl eq_refl).
Defined.

Example embeddings_first_item_without_embedding :
  fst (run (test_embedding_model
              (answering_world (VDict [("data", VList [VDict [("index", VInt 0)]])]))
              "http://vllm-model-7:8000" "llama" ""))
  = Raise (mkExc Exception "Invalid response: missing 'embedding' in data").
Proof. reflexivity. Qed.

Example embeddings_empty_data :
  fst (run (test_embedding_model (answering_world (VDict [("data", VList [])]))
                                 "http://vllm-model-7:8000" "llama" ""))
  = Raise (mkExc Exception "Invalid response: missing or invalid 'data' field").
Proof. reflexivity. Qed.

Example embeddings_success :
  fst (run (test_embedding_model
              (answering_world
                 (VDict [("data", VList [VDict [("embedding",
                                                  VList [VFloat "0.1"; VFloat "0.2"])]])]))
              "http://vllm-model-7:8000" "llama" ""))
  = Ret (test_result
           (embedding_request_data "llama")
           (VDict [("data", VList [VDict [("embedding",
                                            VList [VFloat "0.1"; VFloat "0.2"])]])])).
Proof. reflexivity. Qed.

Example chat_empty_choices :
  fst (run (test_chat_model (answering_world (VDict [("choices", VList [])]))
                            "http://vllm-model-7:8000" "llama" ""))
  = Raise (mkExc Exception "Invalid response: missing 'choices' field").
Proof. reflexivity. Qed.

(** ** The response invariant *)

Ltac populate :=
  first [ apply populated_ready
        | apply populated_loading; simpl; discriminate
        | apply populated_error; simpl; discriminate ].

Lemma models_200_list_or_ready resp s :
  models_200 resp s = ready \/ models_200 resp s = loading "models_list_empty".
Proof.
  unfold models_200. repeat break_match; auto;
    unfold rbind in *; repeat break_match; try congruence;
    match goal with H : Ret _ = Ret _ |- _ => inv H end; auto.
Qed.

Lemma phase1_populated w base log r log' :
  phase1 w base log = (Ret (Returned r), log') -> populated r.
Proof.
  unfold phase1. unfold_monad.
  destruct_http resp e.
  - repeat break_if; cbv iota beta; intros H; inv H; populate.
  - destruct (exc_cls e); intros H; inv H; populate.
Qed.

Lemma models_200_populated resp s : populated (models_200 resp s).
Proof.
  destruct (models_200_list_or_ready resp s) as [-> | ->]; populate.
Qed.

Lemma models_503_populated resp r : models_503 resp = Ret r -> populated r.
Proof.
  unfold models_503, rbind. repeat break_match; intros H; inv H; populate.
Qed.

Lemma phase2_populated w base key s log r log' :
  phase2 w base key s log = (Ret (Returned r), log') -> populated r.
Proof.
  unfold phase2. unfold_monad.
  destruct_http resp e.
  - destruct (status_code resp =? 200).
    + intros H; inv H. apply models_200_populated.
    + destruct (status_code resp =? 503).
      * destruct (models_503 resp) eqn:E.
        -- intros H; inv H. eapply models_503_populated; eauto.
        -- destruct (exc_cls e); intros H; inv H; populate.
      * intros H; inv H.
  - destruct (exc_cls e); intros H; inv H; populate.
Qed.

Lemma chat_503_populated resp r : chat_503 resp = Ret r -> populated r.
Proof.
  unfold chat_503, rbind. repeat break_match; intros H; inv H; populate.
Qed.

Lemma phase3_populated w base key s log r log' :
  phase3 w base key s log = (Ret r, log') -> populated r.
Proof.
  unfold phase3. unfold_monad.
  destruct_http resp e; [|discriminate].
  destruct (status_code resp =? 200); [intros H; inv H; populate|].
  destruct (status_code resp =? 503).
  - destruct (chat_503 resp) eqn:E; intros H; inv H. eapply chat_503_populated; eauto.
  - intros H; inv H; populate.
Qed.

Lemma probe_populated w base s log r log' :
  probe w base s log = (Ret r, log') -> populated r.
Proof.
  unfold probe. unfold bind at 1. unfold lift.
  destruct (get_settings w) as [st|e]; [|discriminate].
  unfold bind at 1.
  destruct (phase1 w base log) as [[[r1|]|e1] l1] eqn:E1; try discriminate.
  - unfold ret. intros H; inv H. eapply phase1_populated; eauto.
  - unfold bind at 1.
    destruct (phase2 w base (api_key_of st) s l1) as [[[r2|]|e2] l2] eqn:E2;
      try discriminate.
    + unfold ret. intros H; inv H. eapply phase2_populated; eauto.
    + apply phase3_populated.
Qed.

(** C9, as stated, fails: the outer catch-all puts the text of the
    exception in the detail, and that text can be empty.  When the
    generation request fails with an exception that carries no message,
    the check answers [error] with the empty string for detail. *)
Lemma readiness_error_with_empty_detail :
  run (check_model_readiness silent_failure_world "vllm-model-7" "llama" None)
  = (Ret (mkReadinessResp "error" (Some "")),
     [health_request "http://vllm-model-7:8000";
      models_request "http://vllm-model-7:8000" "dev-internal-token";
      generation_request "http://vllm-model-7:8000" "dev-internal-token" "llama"]) /\
  status (mkReadinessResp "error" (Some "")) <> "ready" /\
  ~ exists d, detail (mkReadinessResp "error" (Some "")) = Some d /\ d <> "".
Proof.
  split; [reflexivity|]. split; [discriminate|].
  intros (d & Hd & Hne). inv Hd. apply Hne. reflexivity.
Qed.

(** C9 (amended): on every [ReadinessResp] the prober returns, status
    [ready] carries no detail and any other status carries one.  The
    detail is a nonempty string on every path but one: in the outer
    catch-all, status [error], it is the first 200 characters of the
    text of the exception that escaped the probe, and it is empty only
    when that text is empty. *)
Theorem readiness_detail_invariant w c s hp r log :
  run (check_model_readiness w c s hp) = (Ret r, log) ->
  (status r = "ready" -> detail r = None) /\
  (status r <> "ready" ->
   exists d,
     detail r = Some d /\
     (d = "" ->
      status r = "error" /\
      exists base e,
        run (resolve_base_url w c hp) = (Ret base, []) /\
        fst (run (probe w base s)) = Raise e /\
        exc_str e = "")).
Proof.
  intros H.
  destruct (run (resolve_base_url w c hp)) as [[base|e] l0] eqn:E.
  - pose proof (resolve_sends_nothing _ _ _ _ _ E); subst l0.
    rewrite (check_after_resolution _ _ _ _ _ E) in H.
    destruct (run (probe w base s)) as [[r'|e] l] eqn:Ep.
    + inv H. destruct (probe_populated _ _ _ _ _ _ Ep) as [|d Hd|d Hd]; split;
        simpl; intros Hr; try reflexivity; try discriminate;
        try (exfalso; apply Hr; reflexivity);
        (exists d; split; [reflexivity|]; intros ->; exfalso; apply Hd; reflexivity).
    + inv H. split.
      * intros Hr. exfalso. revert Hr. destruct (exc_cls e); discriminate.
      * intros _. destruct (exc_cls e);
          try (eexists; split; [reflexivity|]; discriminate);
          (eexists; split; [reflexivity|]; intros Hd; split; [reflexivity|];
           exists base, e; split; [reflexivity|]; split;
           [rewrite Ep; reflexivity
           |destruct (exc_str e); [reflexivity|discriminate Hd]]).
  - unfold check_model_readiness, run, bind in *. rewrite E in H. discriminate.
Qed.

Lemma readiness_detail_invariant_witness :
  (status (loading "connection_refused") = "ready" ->
   detail (loading "connection_refused") = None) /\
  (status (loading "connection_refused") <> "ready" ->
   exists d,
     detail (loading "connection_refused") = Some d /\
     (d = "" ->
      status (loading "connection_refused") = "error" /\
      exists base e,
        run (resolve_base_url (host_world []) "vllm-model-7" None) = (Ret base, []) /\
        fst (run (probe (host_world []) base "llama")) = Raise e /\
        exc_str e = "")).
Proof.
  apply (readiness_detail_invariant (host_world []) "vllm-model-7" "llama" None
                                    (loading "connection_refused")
                                    [health_request "http://127.0.0.1:8000"]).
  reflexivity.
Defined.

(** * Further properties of the module *)

(** ** Escalation: which requests a readiness check sends *)

Lemma phase1_cases w base log :
  (exists r, phase1 w base log = (Ret (Returned r), (log ++ [health_request base])%list) /\
             health_conclusive w base) \/
  (phase1 w base log = (Ret FellThrough, (log ++ [health_request base])%list) /\
   health_inconclusive w base).
Proof.
  unfold health_conclusive, health_inconclusive.
  destruct (http_client w (health_request base)) as [resp|e] eqn:E.
  - rewrite (phase1_response _ _ _ _ E).
    destruct (status_code resp =? 200) eqn:E2.
    + left. eexists. split; [reflexivity|]. left. apply Z.eqb_eq, E2.
    + destruct (status_code resp =? 503) eqn:E5.
      * left. eexists. split; [reflexivity|]. right. apply Z.eqb_eq, E5.
      * right. split; [reflexivity|]. split; apply Z.eqb_neq; assumption.
  - rewrite (phase1_exception _ _ _ _ E).
    destruct (exc_cls e) eqn:Ec;
      first [ right; split; [reflexivity|split; discriminate]
            | left; eexists; split;
              [reflexivity|first [left; reflexivity|right; reflexivity]] ].
Qed.

Lemma phase2_exception w base key s log e :
  http_client w (models_request base key) = Raise e ->
  phase2 w base key s log =
  (Ret (match exc_cls e with
        | TimeoutException => Returned (loading "models_timeout")
        | ConnectError => Returned (loading "connection_refused")
        | _ => FellThrough
        end),
   (log ++ [models_request base key])%list).
Proof.
  intros H. unfold phase2. unfold_monad. unfold models_request in H. rewrite H.
  destruct (exc_cls e); reflexivity.
Qed.

Lemma phase2_503 w base key s log resp r :
  http_client w (models_request base key) = Ret resp ->
  status_code resp = 503 ->
  models_503 resp = Ret r ->
  phase2 w base key s log = (Ret (Returned r), (log ++ [models_request base key])%list).
Proof.
  intros H H5 Hr. unfold phase2. unfold_monad. unfold models_request in H.
  rewrite H, H5, Hr. reflexivity.
Qed.

Lemma phase2_cases w base key s log :
  (exists r, phase2 w base key s log
             = (Ret (Returned r), (log ++ [models_request base key])%list) /\
             models_conclusive w base key) \/
  (phase2 w base key s log = (Ret FellThrough, (log ++ [models_request base key])%list) /\
   models_inconclusive w base key).
Proof.
  destruct (http_client w (models_request base key)) as [resp|e] eqn:E.
  - destruct (status_code resp =? 200) eqn:E2.
    + apply Z.eqb_eq in E2. left. eexists. split.
      * apply phase2_response; eassumption.
      * unfold models_conclusive. rewrite E. left. exact E2.
    + destruct (status_code resp =? 503) eqn:E5.
      * apply Z.eqb_eq in E5. destruct (models_503 resp) as [r|e] eqn:Er.
        -- left. exists r. split; [eapply phase2_503; eassumption|].
           unfold models_conclusive. rewrite E. right. split; [exact E5|]. eauto.
        -- right. assert (Hi : models_inconclusive w base key).
           { unfold models_inconclusive. rewrite E. apply Z.eqb_neq in E2.
             split; [exact E2|]. intros _. eauto. }
           split; [apply phase2_inconclusive, Hi|exact Hi].
      * right. assert (Hi : models_inconclusive w base key).
        { unfold models_inconclusive. rewrite E. apply Z.eqb_neq in E2, E5.
          split; [exact E2|]. intros; congruence. }
        split; [apply phase2_inconclusive, Hi|exact Hi].
  - rewrite (phase2_exception _ _ _ _ _ _ E).
    unfold models_conclusive, models_inconclusive. rewrite E.
    destruct (exc_cls e) eqn:Ec;
      first [ right; split; [reflexivity|split; discriminate]
            | left; eexists; split;
              [reflexivity|first [left; reflexivity|right; reflexivity]] ].
Qed.

Lemma conclusive_not_inconclusive_health w base :
  health_conclusive w base -> ~ health_inconclusive w base.
Proof.
  unfold health_conclusive, health_inconclusive.
  destruct (http_client w (health_request base)); intros [H|H] [H1 H2]; congruence.
Qed.

Lemma conclusive_not_inconclusive_models w base key :
  models_conclusive w base key -> ~ models_inconclusive w base key.
Proof.
  unfold models_conclusive, models_inconclusive.
  destruct (http_client w (models_request base key)) as [resp|e].
  - intros [H|(H & r & Hr)] [H1 H2]; [congruence|].
    destruct (H2 H) as (e & He). congruence.
  - intros [H|H] [H1 H2]; congruence.
Qed.

Lemma phase3_log w base key s log :
  snd (phase3 w base key s log) = (log ++ [generation_request base key s])%list.
Proof.
  unfold phase3. unfold_monad. fold (generation_request base key s).
  destruct (http_client w (generation_request base key s)) as [resp|e]; [|reflexivity].
  repeat break_if; reflexivity.
Qed.

(** what the outer [try] makes of the probe's outcome *)
Lemma check_guard w c s hp base :
  run (resolve_base_url w c hp) = (Ret base, []) ->
  snd (run (check_model_readiness w c s hp)) = snd (run (probe w base s)) /\
  (forall r, fst (run (probe w base s)) = Ret r ->
             fst (run (check_model_readiness w c s hp)) = Ret r).
Proof.
  intros Hb. rewrite (check_after_resolution _ _ _ _ _ Hb).
  destruct (run (probe w base s)) as [[r|e] log]; split; try reflexivity.
  - intros r' H. exact H.
  - intros r' H. discriminate.
Qed.

(** X1. The requests of a readiness check are sent in the fixed order
    health, listing, generation, and each next one only when the phase
    before was inconclusive: the log is exactly the health request when
    phase 1 decides, health and listing when phase 1 is inconclusive and
    phase 2 decides, and all three when both are inconclusive. *)
Theorem readiness_escalation w c s hp base st :
  run (resolve_base_url w c hp) = (Ret base, []) ->
  get_settings w = Ret st ->
  let log := snd (run (check_model_readiness w c s hp)) in
  let h := health_request base in
  let m := models_request base (api_key_of st) in
  let g := generation_request base (api_key_of st) s in
  (health_conclusive w base /\ log = [h]) \/
  (health_inconclusive w base /\ models_conclusive w base (api_key_of st) /\ log = [h; m]) \/
  (health_inconclusive w base /\ models_inconclusive w base (api_key_of st) /\
   log = [h; m; g]).
Proof.
  intros Hb Hs log h m g. subst log.
  rewrite (proj1 (check_guard _ _ s _ _ Hb)).
  destruct (phase1_cases w base []) as [(r & H1 & Hc)|(H1 & Hi)].
  - left. split; [exact Hc|].
    rewrite (probe_phase1_returned _ _ s _ _ _ Hs H1). reflexivity.
  - right. destruct (phase2_cases w base (api_key_of st) s [health_request base])
      as [(r & H2 & Hc)|(H2 & Hi2)].
    + left. split; [exact Hi|]. split; [exact Hc|].
      rewrite (probe_phase2_returned _ _ s _ _ _ Hs Hi H2). reflexivity.
    + right. split; [exact Hi|]. split; [exact Hi2|].
      rewrite (probe_phase3 _ _ _ _ Hs Hi Hi2). apply phase3_log.
Qed.

Lemma readiness_escalation_witness :
  snd (run (check_model_readiness stalled_world "vllm-model-7" "llama" None))
  = [health_request "http://127.0.0.1:8000";
     models_request "http://127.0.0.1:8000" "dev-internal-token";
     generation_request "http://127.0.0.1:8000" "dev-internal-token" "llama"].
Proof.
  destruct (readiness_escalation stalled_world "vllm-model-7" "llama" None
              "http://127.0.0.1:8000" (mkSettings None) eq_refl eq_refl)
    as [(_ & H)|[(_ & _ & H)|(_ & _ & H)]]; [discriminate H|discriminate H|exact H].
Defined.

(** ** What each verdict of the readiness check rests on *)

Lemma probe_cases w base s st :
  get_settings w = Ret st ->
  (exists r, health_conclusive w base /\
             phase1 w base [] = (Ret (Returned r), [health_request base]) /\
             run (probe w base s) = (Ret r, [health_request base])) \/
  (exists r, health_inconclusive w base /\ models_conclusive w base (api_key_of st) /\
             phase2 w base (api_key_of st) s [health_request base]
             = (Ret (Returned r), [health_request base; models_request base (api_key_of st)]) /\
             run (probe w base s)
             = (Ret r, [health_request base; models_request base (api_key_of st)])) \/
  (health_inconclusive w base /\ models_inconclusive w base (api_key_of st) /\
   run (probe w base s)
   = phase3 w base (api_key_of st) s
            [health_request base; models_request base (api_key_of st)]).
Proof.
  intros Hs.
  destruct (phase1_cases w base []) as [(r & H1 & Hc)|(H1 & Hi)].
  - left. exists r. split; [exact Hc|]. split; [exact H1|].
    apply (probe_phase1_returned _ _ s _ _ _ Hs H1).
  - right. destruct (phase2_cases w base (api_key_of st) s [health_request base])
      as [(r & H2 & Hc)|(H2 & Hi2)].
    + left. exists r. split; [exact Hi|]. split; [exact Hc|]. split; [exact H2|].
      apply (probe_phase2_returned _ _ s _ _ _ Hs Hi H2).
    + right. split; [exact Hi|]. split; [exact Hi2|].
      apply (probe_phase3 _ _ _ _ Hs Hi Hi2).
Qed.

Lemma probe_settings_failure w base s e :
  get_settings w = Raise e -> run (probe w base s) = (Raise e, []).
Proof.
  intros H. unfold probe, run. unfold bind at 1. unfold lift. rewrite H. reflexivity.
Qed.

Lemma check_resolved w c s hp r log :
  run (check_model_readiness w c s hp) = (Ret r, log) ->
  exists base, run (resolve_base_url w c hp) = (Ret base, []).
Proof.
  destruct (run (resolve_base_url w c hp)) as [[base|e] l0] eqn:E.
  - pose proof (resolve_sends_nothing _ _ _ _ _ E); subst l0. eauto.
  - unfold check_model_readiness, run, bind in *. rewrite E. discriminate.
Qed.

Lemma models_503_loading resp r : models_503 resp = Ret r -> status r = "loading".
Proof.
  unfold models_503, rbind. repeat break_match; intros H; inv H; reflexivity.
Qed.

Lemma chat_503_status resp r :
  chat_503 resp = Ret r -> status r = "loading" \/ status r = "error".
Proof.
  unfold chat_503, rbind. repeat break_match; intros H; inv H; auto.
Qed.

Lemma models_200_status resp s :
  models_200 resp s = ready \/ models_200 resp s = loading "models_list_empty".
Proof.
  unfold models_200. repeat break_match; auto;
    unfold rbind in *; repeat break_match; try congruence;
    match goal with H : Ret _ = Ret _ |- _ => inv H end; auto.
Qed.

Lemma phase1_returned_inv w base log r l :
  phase1 w base log = (Ret (Returned r), l) ->
  (exists resp, http_client w (health_request base) = Ret resp /\
                status_code resp = 200 /\ r = ready) \/
  status r = "loading".
Proof.
  destruct (http_client w (health_request base)) as [resp|e] eqn:E.
  - rewrite (phase1_response _ _ _ _ E).
    destruct (status_code resp =? 200) eqn:E2.
    + intros H; inv H. left. exists resp. apply Z.eqb_eq in E2. auto.
    + destruct (status_code resp =? 503); intros H; inv H.
      right. break_if; reflexivity.
  - rewrite (phase1_exception _ _ _ _ E).
    destruct (exc_cls e); intros H; inv H; right; reflexivity.
Qed.

Lemma phase2_returned_inv w base key s log r l :
  phase2 w base key s log = (Ret (Returned r), l) ->
  (exists resp, http_client w (models_request base key) = Ret resp /\
                status_code resp = 200 /\ r = models_200 resp s) \/
  status r = "loading".
Proof.
  destruct (http_client w (models_request base key)) as [resp|e] eqn:E.
  - destruct (status_code resp =? 200) eqn:E2.
    + apply Z.eqb_eq in E2. rewrite (phase2_response _ _ _ _ _ _ E E2).
      intros H; inv H. left. exists resp. auto.
    + unfold phase2. unfold_monad. unfold models_request in E. rewrite E, E2.
      destruct (status_code resp =? 503); [|discriminate].
      destruct (models_503 resp) as [r'|e] eqn:Er.
      * intros H; inv H. right. eapply models_503_loading; eauto.
      * destruct (exc_cls e); intros H; inv H; right; reflexivity.
  - rewrite (phase2_exception _ _ _ _ _ _ E).
    destruct (exc_cls e); intros H; inv H; right; reflexivity.
Qed.

Lemma phase3_returned_inv w base key s log r l :
  phase3 w base key s log = (Ret r, l) ->
  exists resp, http_client w (generation_request base key s) = Ret resp /\
               ((status_code resp = 200 /\ r = ready) \/
                (status_code resp <> 200 /\ (status r = "loading" \/ status r = "error"))).
Proof.
  destruct (http_client w (generation_request base key s)) as [resp|e] eqn:E.
  - rewrite (phase3_response _ _ _ _ _ _ E). exists resp. split; [reflexivity|].
    destruct (status_code resp =? 200) eqn:E2.
    + inv H. left. apply Z.eqb_eq in E2. auto.
    + right. apply Z.eqb_neq in E2. split; [exact E2|].
      destruct (status_code resp =? 503).
      * inv H. eapply chat_503_status; eauto.
      * inv H. right; reflexivity.
  - unfold phase3. unfold_monad. unfold generation_request in E. rewrite E. discriminate.
Qed.

Lemma phase3_transport_failure w base key s log e :
  http_client w (generation_request base key s) = Raise e ->
  phase3 w base key s log = (Raise e, (log ++ [generation_request base key s])%list).
Proof.
  intros E. unfold phase3. unfold_monad. unfold generation_request in E. rewrite E.
  reflexivity.
Qed.

(** the verdicts of the outer guard are never [ready] *)
Lemma guard_not_ready e :
  status (match exc_cls e with
          | TimeoutException => loading "request_timeout"
          | ConnectError => loading "connection_refused"
          | _ => error (PyStr.take 200 (exc_str e))
          end) <> "ready".
Proof. destruct (exc_cls e); discriminate. Qed.

(** X2. [ready] is never reported on trust: whenever the check answers
    [ready], one of the requests it sent was answered with HTTP 200. *)
Theorem ready_rests_on_a_200 w c s hp r log :
  run (check_model_readiness w c s hp) = (Ret r, log) ->
  status r = "ready" ->
  exists req resp,
    In req log /\ http_client w req = Ret resp /\ status_code resp = 200.
Proof.
  intros H Hr. destruct (check_resolved _ _ _ _ _ _ H) as (base & Hb).
  rewrite (check_after_resolution _ _ _ _ _ Hb) in H.
  destruct (get_settings w) as [st|e] eqn:Hs.
  - destruct (probe_cases w base s st Hs)
      as [(r1 & _ & H1 & Hp)|[(r2 & _ & _ & H2 & Hp)|(_ & _ & Hp)]]; rewrite Hp in H.
    + inv H. destruct (phase1_returned_inv _ _ _ _ _ H1) as [(resp & E & E2 & _)|Hl];
        [|rewrite Hl in Hr; discriminate].
      exists (health_request base), resp. simpl; auto.
    + inv H. destruct (phase2_returned_inv _ _ _ _ _ _ _ H2) as [(resp & E & E2 & _)|Hl];
        [|rewrite Hl in Hr; discriminate].
      exists (models_request base (api_key_of st)), resp. simpl; auto.
    + destruct (phase3 w base (api_key_of st) s
                       [health_request base; models_request base (api_key_of st)])
        as [[r3|e3] l3] eqn:H3.
      * inv H. pose proof (phase3_log w base (api_key_of st) s
                             [health_request base; models_request base (api_key_of st)])
          as Hl. rewrite H3 in Hl. simpl in Hl. subst log.
        destruct (phase3_returned_inv _ _ _ _ _ _ _ H3) as (resp & E & [(E2 & _)|(_ & [Hx|Hx])]);
          try (rewrite Hx in Hr; discriminate).
        exists (generation_request base (api_key_of st) s), resp. simpl; auto.
      * inv H. exfalso. exact (guard_not_ready e3 Hr).
  - rewrite (probe_settings_failure _ _ _ _ Hs) in H. inv H.
    exfalso. exact (guard_not_ready e Hr).
Qed.

Lemma ready_rests_on_a_200_witness :
  exists req resp,
    In req [health_request "http://vllm-model-7:8000";
            models_request "http://vllm-model-7:8000" "dev-internal-token"] /\
    http_client (listing_world (json_response 200 "{'data': [{'id': 'llama'}]}"
                                  (VDict [("data", VList [VDict [("id", VStr "llama")]])])))
                req = Ret resp /\
    status_code resp = 200.
Proof.
  apply (ready_rests_on_a_200
           (listing_world (json_response 200 "{'data': [{'id': 'llama'}]}"
                             (VDict [("data", VList [VDict [("id", VStr "llama")]])])))
           "vllm-model-7" "llama" None ready); reflexivity.
Defined.

Lemma phase1_not_error w base log r l :
  phase1 w base log = (Ret (Returned r), l) -> status r <> "error".
Proof.
  intros H. destruct (phase1_returned_inv _ _ _ _ _ H) as [(_ & _ & _ & ->)|Hl];
    [discriminate|rewrite Hl; discriminate].
Qed.

Lemma phase2_not_error w base key s log r l :
  phase2 w base key s log = (Ret (Returned r), l) -> status r <> "error".
Proof.
  intros H. destruct (phase2_returned_inv _ _ _ _ _ _ _ H) as [(resp & _ & _ & ->)|Hl];
    [|rewrite Hl; discriminate].
  destruct (models_200_status resp s) as [-> | ->]; discriminate.
Qed.

(** X3. [error] is a verdict of the last resort only: the check answers
    [error] either without having sent any request, because the settings
    could not be loaded, or after all three requests were sent.  Phases
    1 and 2 never answer [error]. *)
Theorem error_only_at_last_resort w c s hp base r log :
  run (resolve_base_url w c hp) = (Ret base, []) ->
  run (check_model_readiness w c s hp) = (Ret r, log) ->
  status r = "error" ->
  (exists e, get_settings w = Raise e /\ log = []) \/
  (exists st, get_settings w = Ret st /\
              health_inconclusive w base /\
              models_inconclusive w base (api_key_of st) /\
              log = [health_request base;
                     models_request base (api_key_of st);
                     generation_request base (api_key_of st) s]).
Proof.
  intros Hb H Hr. rewrite (check_after_resolution _ _ _ _ _ Hb) in H.
  destruct (get_settings w) as [st|e] eqn:Hs.
  - right. exists st. split; [reflexivity|].
    destruct (probe_cases w base s st Hs)
      as [(r1 & _ & H1 & Hp)|[(r2 & _ & _ & H2 & Hp)|(Hi1 & Hi2 & Hp)]].
    + rewrite Hp in H. inv H. exfalso. exact (phase1_not_error _ _ _ _ _ H1 Hr).
    + rewrite Hp in H. inv H. exfalso. exact (phase2_not_error _ _ _ _ _ _ _ H2 Hr).
    + split; [exact Hi1|]. split; [exact Hi2|].
      pose proof (phase3_log w base (api_key_of st) s
                    [health_request base; models_request base (api_key_of st)]) as Hl.
      rewrite <- Hp in Hl.
      destruct (run (probe w base s)) as [[r3|e3] l3]; inv H; exact Hl.
  - left. exists e. split; [reflexivity|].
    rewrite (probe_settings_failure _ _ _ _ Hs) in H. inv H. reflexivity.
Qed.

Lemma error_only_at_last_resort_witness :
  (exists e, get_settings (generation_world (plain_response 404 "Not Found")) = Raise e /\
             [health_request "http://vllm-model-7:8000";
              models_request "http://vllm-model-7:8000" "dev-internal-token";
              generation_request "http://vllm-model-7:8000" "dev-internal-token" "llama"]
             = []) \/
  (exists st, get_settings (generation_world (plain_response 404 "Not Found")) = Ret st /\
              health_inconclusive (generation_world (plain_response 404 "Not Found"))
                                  "http://vllm-model-7:8000" /\
              models_inconclusive (generation_world (plain_response 404 "Not Found"))
                                  "http://vllm-model-7:8000" (api_key_of st) /\
              [health_request "http://vllm-model-7:8000";
               models_request "http://vllm-model-7:8000" "dev-internal-token";
               generation_request "http://vllm-model-7:8000" "dev-internal-token" "llama"]
              = [health_request "http://vllm-model-7:8000";
                 models_request "http://vllm-model-7:8000" (api_key_of st);
                 generation_request "http://vllm-model-7:8000" (api_key_of st) "llama"]).
Proof.
  apply (error_only_at_last_resort
           (generation_world (plain_response 404 "Not Found"))
           "vllm-model-7" "llama" None "http://vllm-model-7:8000" (error "HTTP 404"));
    reflexivity.
Defined.

(** X4. A transport failure is never held against the model: if any
    request the check sent ended in a timeout or a connection error, the
    verdict is [loading]. *)
Theorem transient_failure_is_loading w c s hp r log req e :
  run (check_model_readiness w c s hp) = (Ret r, log) ->
  In req log ->
  http_client w req = Raise e ->
  transient e ->
  status r = "loading".
Proof.
  intros H Hin He Ht. destruct (check_resolved _ _ _ _ _ _ H) as (base & Hb).
  rewrite (check_after_resolution _ _ _ _ _ Hb) in H.
  assert (Hh : health_inconclusive w base ->
               http_client w (health_request base) <> Raise e).
  { unfold health_inconclusive. intros Hi E. rewrite E in Hi.
    destruct Hi, Ht; congruence. }
  assert (Hm : forall key, models_inconclusive w base key ->
                           http_client w (models_request base key) <> Raise e).
  { unfold models_inconclusive. intros key Hi E. rewrite E in Hi.
    destruct Hi, Ht; congruence. }
  destruct (get_settings w) as [st|e0] eqn:Hs.
  - destruct (probe_cases w base s st Hs)
      as [(r1 & _ & H1 & Hp)|[(r2 & Hi1 & _ & H2 & Hp)|(Hi1 & Hi2 & Hp)]].
    + rewrite Hp in H. inv H. destruct Hin as [<-|[]].
      rewrite (phase1_exception _ _ _ _ He) in H1.
      destruct Ht as [Hc|Hc]; rewrite Hc in H1; inv H1; reflexivity.
    + rewrite Hp in H. inv H. destruct Hin as [<-|[<-|[]]].
      * exfalso. exact (Hh Hi1 He).
      * rewrite (phase2_exception _ _ _ _ _ _ He) in H2.
        destruct Ht as [Hc|Hc]; rewrite Hc in H2; inv H2; reflexivity.
    + pose proof (phase3_log w base (api_key_of st) s
                    [health_request base; models_request base (api_key_of st)]) as Hl.
      rewrite <- Hp in Hl.
      assert (Hlog : log = [health_request base; models_request base (api_key_of st);
                            generation_request base (api_key_of st) s]).
      { destruct (run (probe w base s)) as [[r3|e3] l3]; inv H; exact Hl. }
      subst log. destruct Hin as [<-|[<-|[<-|[]]]].
      * exfalso. exact (Hh Hi1 He).
      * exfalso. exact (Hm _ Hi2 He).
      * rewrite Hp, (phase3_transport_failure _ _ _ _ _ _ He) in H. inv H.
        destruct Ht as [Hc|Hc]; rewrite Hc; reflexivity.
  - rewrite (probe_settings_failure _ _ _ _ Hs) in H. inv H. destruct Hin.
Qed.

Lemma transient_failure_is_loading_witness :
  status (loading "request_timeout") = "loading".
Proof.
  apply (transient_failure_is_loading
           stalled_world "vllm-model-7" "llama" None (loading "request_timeout")
           [health_request "http://127.0.0.1:8000";
            models_request "http://127.0.0.1:8000" "dev-internal-token";
            generation_request "http://127.0.0.1:8000" "dev-internal-token" "llama"]
           (generation_request "http://127.0.0.1:8000" "dev-internal-token" "llama")
           (mkExc TimeoutException "timed out")).
  - reflexivity.
  - right. right. left. reflexivity.
  - reflexivity.
  - left. reflexivity.
Defined.

(** ** Substrings and letter case *)

Lemma prefix_lower a b :
  prefix a b = true -> prefix (PyStr.lower a) (PyStr.lower b) = true.
Proof.
  revert b. induction a as [|x a IH]; intros b; [destruct b; reflexivity|].
  destruct b as [|y b]; simpl; [discriminate|].
  destruct (ascii_dec x y) as [->|]; [|discriminate].
  intros H. destruct (ascii_dec (PyStr.to_lower y) (PyStr.to_lower y)); [|congruence].
  apply IH, H.
Qed.

Lemma contains_lower sub s :
  PyStr.contains sub s = true ->
  PyStr.contains (PyStr.lower sub) (PyStr.lower s) = true.
Proof.
  induction s as [|c s IH]; cbn [PyStr.contains PyStr.lower]; intros H;
    apply orb_true_iff in H; destruct H as [H|H]; try discriminate.
  - apply prefix_lower in H. cbn [PyStr.lower] in H. rewrite H. reflexivity.
  - apply prefix_lower in H. cbn [PyStr.lower] in H. rewrite H. reflexivity.
  - rewrite (IH H). apply orb_true_r.
Qed.

Lemma prefix_app_l a b s : prefix (a ++ b) s = true -> prefix a s = true.
Proof.
  revert s. induction a as [|x a IH]; intros s; [destruct s; reflexivity|].
  destruct s as [|y s]; simpl; [discriminate|].
  destruct (ascii_dec x y); [apply IH|discriminate].
Qed.

Lemma contains_app_l a b s :
  PyStr.contains (a ++ b) s = true -> PyStr.contains a s = true.
Proof.
  induction s as [|c s IH]; cbn [PyStr.contains]; intros H;
    apply orb_true_iff in H; destruct H as [H|H]; try discriminate.
  - rewrite (prefix_app_l _ _ _ H). reflexivity.
  - rewrite (prefix_app_l _ _ _ H). reflexivity.
  - rewrite (IH H). apply orb_true_r.
Qed.

Lemma prefix_here sub rest : prefix sub (sub ++ rest) = true.
Proof.
  induction sub as [|c sub IH]; [destruct rest; reflexivity|]. simpl.
  destruct (ascii_dec c c); [exact IH|congruence].
Qed.

Lemma contains_inside pre sub post : PyStr.contains sub (pre ++ sub ++ post) = true.
Proof.
  induction pre as [|c pre IH].
  - change ("" ++ sub ++ post)%string with (sub ++ post)%string.
    destruct (sub ++ post)%string eqn:E; cbn [PyStr.contains]; rewrite <- E;
      rewrite prefix_here; reflexivity.
  - change (String c pre ++ sub ++ post)%string with (String c (pre ++ sub ++ post)).
    cbn [PyStr.contains]. rewrite IH. apply orb_true_r.
Qed.

Lemma lower_app a b : PyStr.lower (a ++ b) = (PyStr.lower a ++ PyStr.lower b)%string.
Proof. induction a as [|c a IH]; simpl; [reflexivity|]. rewrite IH. reflexivity. Qed.

(** a keyword written in any letter case is found in the lower-cased
    text *)
Lemma contains_any_case keyword pre k post :
  PyStr.lower k = keyword ->
  PyStr.contains keyword (PyStr.lower (pre ++ k ++ post)) = true.
Proof.
  intros <-. rewrite !lower_app. apply contains_inside.
Qed.

(** the first test of line 287 is subsumed by the second *)
Lemma loading_model_is_loading msg :
  PyStr.contains "Loading model" msg = true ->
  PyStr.contains "loading" (PyStr.lower msg) = true.
Proof.
  intros H. apply contains_lower in H.
  exact (contains_app_l "loading" " model" _ H).
Qed.

(** ** Phase 2 on answers other than 200 *)

Lemma models_503_text resp msg :
  models_503_msg resp = VStr msg ->
  models_503 resp = Ret (if PyStr.contains "loading" (PyStr.lower msg)
                         then loading "loading_model"
                         else loading ("503: " ++ PyStr.take 100 msg)).
Proof.
  intros H. unfold models_503. rewrite H. cbn [Py.contains rbind Py.lower Py.slice_to Py.str].
  destruct (PyStr.contains "Loading model" msg) eqn:E.
  - cbn [rbind]. rewrite (loading_model_is_loading _ E). reflexivity.
  - cbn [rbind]. destruct (PyStr.contains "loading" (PyStr.lower msg)); reflexivity.
Qed.

(** X5. A 503 from the listing endpoint never yields [error]: when phase
    1 is inconclusive and the message read off the body is text, the
    verdict is [loading], with detail [loading_model] if the message
    contains "loading" in any letter case, and with detail [503: ]
    followed by the first 100 characters of the message otherwise. *)
Theorem phase2_503_is_loading w c s hp base st resp msg :
  run (resolve_base_url w c hp) = (Ret base, []) ->
  get_settings w = Ret st ->
  health_inconclusive w base ->
  http_client w (models_request base (api_key_of st)) = Ret resp ->
  status_code resp = 503 ->
  models_503_msg resp = VStr msg ->
  run (check_model_readiness w c s hp)
  = (Ret (if PyStr.contains "loading" (PyStr.lower msg)
          then loading "loading_model"
          else loading ("503: " ++ PyStr.take 100 msg)),
     [health_request base; models_request base (api_key_of st)]).
Proof.
  intros Hb Hs H1 H H5 Hm. rewrite (check_after_resolution _ _ _ _ _ Hb).
  erewrite probe_phase2_returned; eauto.
  exact (phase2_503 _ _ _ s [health_request base] _ _ H H5 (models_503_text _ _ Hm)).
Qed.

Lemma phase2_503_is_loading_witness :
  run (check_model_readiness
         (listing_world
            (json_response 503 "{'error': {'message': 'Model is LOADING'}}"
               (VDict [("error", VDict [("message", VStr "Model is LOADING")])])))
         "vllm-model-7" "llama" None)
  = (Ret (loading "loading_model"),
     [health_request "http://vllm-model-7:8000";
      models_request "http://vllm-model-7:8000" "dev-internal-token"]).
Proof.
  refine (phase2_503_is_loading
            (listing_world
               (json_response 503 "{'error': {'message': 'Model is LOADING'}}"
                  (VDict [("error", VDict [("message", VStr "Model is LOADING")])])))
            "vllm-model-7" "llama" None "http://vllm-model-7:8000" (mkSettings None)
            (mkResponse 503 "{'error': {'message': 'Model is LOADING'}}"
               (Ret (VDict [("error", VDict [("message", VStr "Model is LOADING")])])))
            "Model is LOADING" eq_refl eq_refl _ eq_refl eq_refl eq_refl).
  unfold health_inconclusive. simpl. split; discriminate.
Defined.

(** X6. When phase 1 is inconclusive and the listing request fails in
    transport, the verdict is [loading]: detail [models_timeout] for a
    timeout, [connection_refused] for a connection error; the generation
    request is not sent. *)
Theorem phase2_transport_failure w c s hp base st e :
  run (resolve_base_url w c hp) = (Ret base, []) ->
  get_settings w = Ret st ->
  health_inconclusive w base ->
  http_client w (models_request base (api_key_of st)) = Raise e ->
  (exc_cls e = TimeoutException ->
   run (check_model_readiness w c s hp)
   = (Ret (loading "models_timeout"),
      [health_request base; models_request base (api_key_of st)])) /\
  (exc_cls e = ConnectError ->
   run (check_model_readiness w c s hp)
   = (Ret (loading "connection_refused"),
      [health_request base; models_request base (api_key_of st)])).
Proof.
  intros Hb Hs H1 H. rewrite (check_after_resolution _ _ _ _ _ Hb).
  split; intros Hc; erewrite probe_phase2_returned; eauto;
    rewrite (phase2_exception _ _ _ _ _ _ H), Hc; reflexivity.
Qed.

Lemma phase2_transport_failure_witness :
  run (check_model_readiness
         (listing_world (Raise (mkExc TimeoutException "timed out")))
         "vllm-model-7" "llama" None)
  = (Ret (loading "models_timeout"),
     [health_request "http://vllm-model-7:8000";
      models_request "http://vllm-model-7:8000" "dev-internal-token"]).
Proof.
  refine (proj1 (phase2_transport_failure
                   (listing_world (Raise (mkExc TimeoutException "timed out")))
                   "vllm-model-7" "llama" None "http://vllm-model-7:8000" (mkSettings None)
                   (mkExc TimeoutException "timed out") eq_refl eq_refl _ eq_refl) eq_refl).
  unfold health_inconclusive. simpl. split; discriminate.
Defined.

(** ** Settings, addresses and credentials *)

Lemma readiness_escalation_log w c s hp base st :
  run (resolve_base_url w c hp) = (Ret base, []) ->
  get_settings w = Ret st ->
  snd (run (check_model_readiness w c s hp)) = [health_request base] \/
  snd (run (check_model_readiness w c s hp))
  = [health_request base; models_request base (api_key_of st)] \/
  snd (run (check_model_readiness w c s hp))
  = [health_request base; models_request base (api_key_of st);
     generation_request base (api_key_of st) s].
Proof.
  intros Hb Hs. rewrite (proj1 (check_guard _ _ s _ _ Hb)).
  destruct (probe_cases w base s st Hs)
    as [(r1 & _ & _ & Hp)|[(r2 & _ & _ & _ & Hp)|(_ & _ & Hp)]]; rewrite Hp.
  - left. reflexivity.
  - right. left. reflexivity.
  - right. right. apply phase3_log.
Qed.

(** X7. When the settings cannot be loaded, the backend is not contacted
    at all: no request is sent, and the failure is answered by the outer
    guard, with status [error] and the first 200 characters of the
    failure's text unless the failure is a timeout or connection error. *)
Theorem settings_failure_sends_nothing w c s hp base e :
  run (resolve_base_url w c hp) = (Ret base, []) ->
  get_settings w = Raise e ->
  ~ transient e ->
  run (check_model_readiness w c s hp) = (Ret (error (PyStr.take 200 (exc_str e))), []).
Proof.
  intros Hb Hs Ht. rewrite (check_after_resolution _ _ _ _ _ Hb).
  rewrite (probe_settings_failure _ _ _ _ Hs). unfold transient in Ht.
  destruct (exc_cls e); try reflexivity; exfalso; apply Ht; auto.
Qed.

Lemma settings_failure_sends_nothing_witness :
  run (check_model_readiness
         (mkWorld (fun _ => Ret tt)
                  (Raise (mkExc Exception "1 validation error for Settings"))
                  (serving []))
         "vllm-model-7" "llama" None)
  = (Ret (error (PyStr.take 200 "1 validation error for Settings")), []).
Proof.
  apply (settings_failure_sends_nothing
           (mkWorld (fun _ => Ret tt)
                    (Raise (mkExc Exception "1 validation error for Settings"))
                    (serving []))
           "vllm-model-7" "llama" None "http://vllm-model-7:8000"
           (mkExc Exception "1 validation error for Settings")).
  - reflexivity.
  - reflexivity.
  - intros [H|H]; discriminate H.
Defined.

(** X8. The container name and the fallback port matter only through the
    base address chosen from them: two calls that choose the same
    address behave alike.  In particular the fallback port is ignored
    whenever the container name resolves. *)
Theorem readiness_depends_on_address_only w c c' s hp hp' base :
  run (resolve_base_url w c hp) = (Ret base, []) ->
  run (resolve_base_url w c' hp') = (Ret base, []) ->
  run (check_model_readiness w c s hp) = run (check_model_readiness w c' s hp').
Proof.
  intros H H'. rewrite (check_after_resolution _ _ _ _ _ H).
  rewrite (check_after_resolution _ _ _ _ _ H'). reflexivity.
Qed.

Lemma readiness_depends_on_address_only_witness :
  run (check_model_readiness (bridge_world []) "vllm-model-7" "llama" (Some 8001))
  = run (check_model_readiness (bridge_world []) "vllm-model-7" "llama" None).
Proof.
  apply (readiness_depends_on_address_only
           (bridge_world []) "vllm-model-7" "vllm-model-7" "llama" (Some 8001) None
           "http://vllm-model-7:8000"); reflexivity.
Defined.

Lemma api_key_nonempty st : api_key_of st <> "".
Proof.
  unfold api_key_of. destruct (INTERNAL_VLLM_API_KEY st) as [k|]; [|discriminate].
  destruct (String.eqb k "") eqn:E; [discriminate|]. apply String.eqb_neq, E.
Qed.

(** X9. Credentials on the wire: the health request carries no header;
    every other request of the check carries [Authorization: Bearer k]
    with a nonempty [k], the configured key when one is set and
    nonempty, and [dev-internal-token] otherwise. *)
Theorem readiness_credentials w c s hp base st req :
  run (resolve_base_url w c hp) = (Ret base, []) ->
  get_settings w = Ret st ->
  In req (snd (run (check_model_readiness w c s hp))) ->
  (req = health_request base /\ req_headers req = []) \/
  (exists k,
      In ("Authorization", "Bearer " ++ k) (req_headers req) /\
      k <> "" /\
      (forall configured,
          INTERNAL_VLLM_API_KEY st = Some configured -> configured <> "" ->
          k = configured) /\
      (INTERNAL_VLLM_API_KEY st = None \/ INTERNAL_VLLM_API_KEY st = Some "" ->
       k = "dev-internal-token")).
Proof.
  intros Hb Hs Hin.
  assert (Hk : exists k,
             k = api_key_of st /\ k <> "" /\
             (forall configured,
                 INTERNAL_VLLM_API_KEY st = Some configured -> configured <> "" ->
                 k = configured) /\
             (INTERNAL_VLLM_API_KEY st = None \/ INTERNAL_VLLM_API_KEY st = Some "" ->
              k = "dev-internal-token")).
  { exists (api_key_of st). split; [reflexivity|]. split; [apply api_key_nonempty|].
    unfold api_key_of. split.
    - intros k -> Hne. apply String.eqb_neq in Hne. rewrite Hne. reflexivity.
    - intros [-> | ->]; reflexivity. }
  destruct Hk as (k & -> & Hk).
  destruct (readiness_escalation_log w c s hp base st Hb Hs) as [H|[H|H]];
    rewrite H in Hin; simpl in Hin;
    repeat match goal with
           | H : _ \/ _ |- _ => destruct H as [<-|H]
           | H : False |- _ => destruct H
           end;
    first [ left; split; reflexivity
          | right; exists (api_key_of st); split; [simpl; auto|exact Hk] ].
Qed.

Lemma readiness_credentials_witness :
  (models_request "http://127.0.0.1:8000" "dev-internal-token"
   = health_request "http://127.0.0.1:8000" /\
   req_headers (models_request "http://127.0.0.1:8000" "dev-internal-token") = []) \/
  (exists k,
      In ("Authorization", "Bearer " ++ k)
         (req_headers (models_request "http://127.0.0.1:8000" "dev-internal-token")) /\
      k <> "" /\
      (forall configured,
          INTERNAL_VLLM_API_KEY (mkSettings None) = Some configured -> configured <> "" ->
          k = configured) /\
      (INTERNAL_VLLM_API_KEY (mkSettings None) = None \/
       INTERNAL_VLLM_API_KEY (mkSettings None) = Some "" ->
       k = "dev-internal-token")).
Proof.
  apply (readiness_credentials stalled_world "vllm-model-7" "llama" None
                               "http://127.0.0.1:8000" (mkSettings None)).
  - reflexivity.
  - reflexivity.
  - right. left. reflexivity.
Defined.

(** ** The listing verdict in full *)

Lemma models_200_empty_iff resp s :
  models_200 resp s = loading "models_list_empty" <-> empty_listing resp.
Proof.
  unfold empty_listing, models_200. split.
  - destruct (json resp) as [data|e]; [|discriminate]. cbn [rbind].
    destruct data as [| | | | | |entries]; try discriminate.
    cbn [Py.get_default rbind]. fold (entry_or "data" entries (VList [])).
    intros H. exists entries. split; [reflexivity|].
    destruct (entry_or "data" entries (VList [])) as [| | | |t|items|d];
      try discriminate.
    + destruct t as [|ch t]; [auto|]. discriminate.
    + destruct items as [|m items]; [auto|].
      cbn [Py.iter rbind Py.truthy negb] in H.
      destruct (find_model s (m :: items)) as [[]|]; discriminate.
    + destruct d as [|kv d]; [auto|]. discriminate.
  - intros (entries & Hj & Hd). rewrite Hj. cbn [rbind Py.get_default].
    fold (entry_or "data" entries (VList [])).
    destruct Hd as [-> |[-> | ->]]; reflexivity.
Qed.

(** X10. The verdict of a 200 listing in full: when phase 1 is
    inconclusive and the listing endpoint answers 200, the check answers
    [loading] with detail [models_list_empty] exactly when the body is
    an object whose [data] is missing or an empty list, object or
    string; in every other case, whatever the body, it answers [ready]. *)
Theorem listing_200_verdict w c s hp base st resp :
  run (resolve_base_url w c hp) = (Ret base, []) ->
  get_settings w = Ret st ->
  health_inconclusive w base ->
  http_client w (models_request base (api_key_of st)) = Ret resp ->
  status_code resp = 200 ->
  (empty_listing resp ->
   run (check_model_readiness w c s hp)
   = (Ret (loading "models_list_empty"),
      [health_request base; models_request base (api_key_of st)])) /\
  (~ empty_listing resp ->
   run (check_model_readiness w c s hp)
   = (Ret ready, [health_request base; models_request base (api_key_of st)])).
Proof.
  intros Hb Hs H1 H H2.
  rewrite (check_models_200 _ _ _ _ _ _ _ Hb Hs H1 H H2). split.
  - intros He. apply (models_200_empty_iff resp s) in He. rewrite He. reflexivity.
  - intros Hn. destruct (models_200_status resp s) as [-> | Hl]; [reflexivity|].
    exfalso. apply Hn. apply (models_200_empty_iff resp s), Hl.
Qed.

Lemma listing_200_verdict_witness :
  run (check_model_readiness
         (listing_world (json_response 200 "{'object': 'list'}"
                           (VDict [("object", VStr "list")])))
         "vllm-model-7" "llama" None)
  = (Ret (loading "models_list_empty"),
     [health_request "http://vllm-model-7:8000";
      models_request "http://vllm-model-7:8000" "dev-internal-token"]).
Proof.
  refine (proj1 (listing_200_verdict
                   (listing_world (json_response 200 "{'object': 'list'}"
                                     (VDict [("object", VStr "list")])))
                   "vllm-model-7" "llama" None "http://vllm-model-7:8000" (mkSettings None)
                   (mkResponse 200 "{'object': 'list'}" (Ret (VDict [("object", VStr "list")])))
                   eq_refl eq_refl _ eq_refl eq_refl) _).
  - unfold health_inconclusive. simpl. split; discriminate.
  - exists [("object", VStr "list")]. split; [reflexivity|]. left. reflexivity.
Defined.

(** ** The response normalizer *)

Lemma to_chat_format_inv model comp_data r :
  to_chat_format model comp_data = Ret r ->
  exists entries choice,
    first_choice comp_data = Some (entries, choice) /\
    r = normalized_response model entries choice.
Proof.
  destruct comp_data as [| | | | | |entries]; try discriminate.
  unfold to_chat_format, first_choice. cbn [rbind Py.get Py.get_default].
  destruct (Py.lookup "choices" entries) as [v|] eqn:E.
  - destruct v as [| | | |t|items|d]; try discriminate.
    + destruct t; discriminate.
    + destruct items as [|x items]; [discriminate|].
      destruct x as [| | | | | |choice]; try discriminate.
      cbn [Py.first rbind Py.get_default]. intros H; inv H.
      exists entries, choice. split; reflexivity.
  - cbn [Py.first rbind Py.get_default Py.lookup]. intros H; inv H.
    exists entries, []. split; reflexivity.
Qed.

Lemma to_chat_format_first_choice model comp_data entries choice :
  first_choice comp_data = Some (entries, choice) ->
  to_chat_format model comp_data = Ret (normalized_response model entries choice).
Proof.
  intros Hf. destruct comp_data as [| | | | | |entries']; try discriminate.
  unfold first_choice in Hf.
  destruct (Py.lookup "choices" entries') as [v|] eqn:E.
  - destruct v as [| | | | |items|]; try discriminate.
    destruct items as [|x items]; [discriminate|].
    destruct x as [| | | | | |choice']; try discriminate. inv Hf.
    eapply to_chat_format_object; eauto.
  - inv Hf. unfold to_chat_format, normalized_response, entry_or.
    cbn [rbind Py.get Py.get_default]. rewrite E. reflexivity.
Qed.

(** X11. Conversion of a completions answer to chat format succeeds
    exactly when the answer is an object whose [choices] is missing or a
    list that starts with an object.  The result then keeps [id],
    [created] and [usage], takes [model] from the answer or else from
    the request, and has a single choice with role [assistant], the
    first choice's [text] as content (the empty string when missing) and
    its [finish_reason]. *)
Theorem to_chat_format_succeeds_iff model comp_data r :
  to_chat_format model comp_data = Ret r <->
  exists entries choice,
    first_choice comp_data = Some (entries, choice) /\
    r = normalized_response model entries choice.
Proof.
  split.
  - apply to_chat_format_inv.
  - intros (entries & choice & Hf & ->). apply to_chat_format_first_choice, Hf.
Qed.

Lemma to_chat_format_succeeds_iff_witness :
  to_chat_format "llama" (VDict [("choices", VList [VDict [("text", VStr "ok")]])])
  = Ret (normalized_response "llama" [("choices", VList [VDict [("text", VStr "ok")]])]
                             [("text", VStr "ok")]).
Proof.
  apply (proj2 (to_chat_format_succeeds_iff
                  "llama" (VDict [("choices", VList [VDict [("text", VStr "ok")]])])
                  (normalized_response "llama"
                     [("choices", VList [VDict [("text", VStr "ok")]])]
                     [("text", VStr "ok")]))).
  eexists _, _. split; reflexivity.
Defined.

Example normalize_without_choices :
  to_chat_format "llama" (VDict [("id", VStr "cmpl-1"); ("model", VStr "served")])
  = Ret (VDict [("id", VStr "cmpl-1");
                ("object", VStr "chat.completion");
                ("created", VNone);
                ("model", VStr "served");
                ("choices", VList [assistant_choice (VStr "") VNone]);
                ("usage", VNone)]).
Proof. reflexivity. Qed.

Lemma normalized_valid_chat model entries choice :
  valid_chat (normalized_response model entries choice).
Proof. eexists. split; reflexivity. Qed.

(** ** The chat test beyond the fallback *)

Lemma test_chat_model_transport w base model key e :
  http_client w (chat_request base model key) = Raise e ->
  run (test_chat_model w base model key) = (Raise e, [chat_request base model key]).
Proof.
  intros H. unfold test_chat_model, run. cbv zeta. unfold bind at 1.
  unfold http_post at 1, send. fold (chat_request base model key). rewrite H. reflexivity.
Qed.

Lemma test_embedding_model_transport w base model key e :
  http_client w (embeddings_request base model key) = Raise e ->
  run (test_embedding_model w base model key)
  = (Raise e, [embeddings_request base model key]).
Proof.
  intros H. unfold test_embedding_model, run. cbv zeta. unfold bind at 1.
  unfold http_post at 1, send. fold (embeddings_request base model key). rewrite H.
  reflexivity.
Qed.

Lemma test_embedding_model_error w base model key resp :
  http_client w (embeddings_request base model key) = Ret resp ->
  400 <= status_code resp ->
  run (test_embedding_model w base model key)
  = (Raise (original_error resp), [embeddings_request base model key]).
Proof.
  intros H Hs. apply Z.leb_le in Hs.
  unfold test_embedding_model, run. cbv zeta. unfold bind at 1.
  unfold http_post at 1, send. fold (embeddings_request base model key). rewrite H.
  cbn [app]. rewrite Hs. reflexivity.
Qed.

(** X12. The chat test sends the chat request first and at most one
    more request: the completion request, sent only after the chat
    request was answered with an error status whose message contains
    "chat template". *)
Theorem chat_test_requests w base model key :
  snd (run (test_chat_model w base model key)) = [chat_request base model key] \/
  (snd (run (test_chat_model w base model key))
   = [chat_request base model key; completion_http_request base model key] /\
   exists resp msg,
     http_client w (chat_request base model key) = Ret resp /\
     400 <= status_code resp /\
     chat_test_msg resp = Ret msg /\
     PyStr.contains "chat template" msg = true).
Proof.
  destruct (http_client w (chat_request base model key)) as [resp|e] eqn:E.
  - destruct (Z.le_gt_cases 400 (status_code resp)) as [Hs|Hs].
    + rewrite (test_chat_model_error _ _ _ _ _ E Hs).
      destruct (chat_test_msg resp) as [msg|e] eqn:Em; [|left; reflexivity].
      destruct (PyStr.contains "chat template" msg) eqn:Ec; [|left; reflexivity].
      right. rewrite chat_fallback_steps. split.
      * destruct (http_client w (completion_http_request base model key)) as [cresp|e];
          [|reflexivity].
        destruct (400 <=? status_code cresp); [reflexivity|].
        destruct (json cresp) as [d|e]; [|reflexivity]. cbn [rbind].
        destruct (to_chat_format model d); reflexivity.
      * exists resp, msg. auto.
    + left. rewrite (test_chat_model_success _ _ _ _ _ E Hs). reflexivity.
  - left. rewrite (test_chat_model_transport _ _ _ _ _ E). reflexivity.
Qed.

(** X13. Whatever the chat test returns is well-formed: the request is
    the fixed test payload and the response is an object with a
    nonempty [choices], on the direct path as after the fallback. *)
Theorem chat_test_result_shape w base model key v log :
  run (test_chat_model w base model key) = (Ret v, log) ->
  exists response_data,
    v = test_result (chat_request_data model) response_data /\
    valid_chat response_data.
Proof.
  destruct (http_client w (chat_request base model key)) as [resp|e] eqn:E.
  - destruct (Z.le_gt_cases 400 (status_code resp)) as [Hs|Hs].
    + rewrite (test_chat_model_error _ _ _ _ _ E Hs).
      destruct (chat_test_msg resp) as [msg|e]; [|discriminate].
      destruct (PyStr.contains "chat template" msg); [|discriminate].
      rewrite chat_fallback_steps.
      destruct (http_client w (completion_http_request base model key)) as [cresp|e];
        [|discriminate].
      destruct (400 <=? status_code cresp); [discriminate|].
      destruct (json cresp) as [d|e]; [|discriminate]. cbn [rbind].
      destruct (to_chat_format model d) as [rd|e] eqn:Et; [|discriminate].
      intros H; inv H. exists rd. split; [reflexivity|].
      apply to_chat_format_inv in Et. destruct Et as (entries & choice & _ & ->).
      apply normalized_valid_chat.
    + rewrite (test_chat_model_success _ _ _ _ _ E Hs).
      destruct (json resp) as [d|e]; [|discriminate]. cbn [rbind].
      destruct d as [| | | | | |entries]; try discriminate.
      rewrite get_object. cbn [rbind].
      destruct (Py.truthy (entry_or "choices" entries VNone)) eqn:Et; [|discriminate].
      intros H; inv H. exists (VDict entries). split; [reflexivity|].
      exists entries. auto.
  - rewrite (test_chat_model_transport _ _ _ _ _ E). discriminate.
Qed.

Lemma chat_test_result_shape_witness :
  exists response_data,
    test_result (chat_request_data "llama") chat_ok_body
    = test_result (chat_request_data "llama") response_data /\
    valid_chat response_data.
Proof.
  apply (chat_test_result_shape (answering_world chat_ok_body)
                                "http://vllm-model-7:8000" "llama" ""
                                (test_result (chat_request_data "llama") chat_ok_body)
                                [chat_request "http://vllm-model-7:8000" "llama" ""]).
  reflexivity.
Defined.

(** X14. On an answer without error status the chat test succeeds
    exactly when the body decodes to an object with a truthy [choices];
    it then returns the fixed request and the decoded body unchanged,
    after a single request. *)
Theorem chat_test_direct_success w base model key resp v :
  http_client w (chat_request base model key) = Ret resp ->
  status_code resp < 400 ->
  (run (test_chat_model w base model key) = (Ret v, [chat_request base model key]) <->
   exists body,
     json resp = Ret body /\ valid_chat body /\
     v = test_result (chat_request_data model) body).
Proof.
  intros H Hs. rewrite (test_chat_model_success _ _ _ _ _ H Hs). split.
  - destruct (json resp) as [d|e]; [|discriminate]. cbn [rbind].
    destruct d as [| | | | | |entries]; try discriminate.
    rewrite get_object. cbn [rbind].
    destruct (Py.truthy (entry_or "choices" entries VNone)) eqn:Et; [|discriminate].
    intros Heq; inv Heq. exists (VDict entries). split; [reflexivity|].
    split; [|reflexivity]. exists entries. auto.
  - intros (body & Hj & (entries & -> & Ht) & ->). rewrite Hj. cbn [rbind].
    rewrite get_object. cbn [rbind]. rewrite Ht. reflexivity.
Qed.

Lemma chat_test_direct_success_witness :
  run (test_chat_model (answering_world chat_ok_body) "http://vllm-model-7:8000" "llama" "")
  = (Ret (test_result (chat_request_data "llama") chat_ok_body),
     [chat_request "http://vllm-model-7:8000" "llama" ""]).
Proof.
  assert (Hs : status_code (mkResponse 200 "" (Ret chat_ok_body)) < 400) by (simpl; lia).
  apply (proj2 (chat_test_direct_success
                  (answering_world chat_ok_body) "http://vllm-model-7:8000" "llama" ""
                  (mkResponse 200 "" (Ret chat_ok_body))
                  (test_result (chat_request_data "llama") chat_ok_body) eq_refl Hs)).
  exists chat_ok_body. split; [reflexivity|]. split; [|reflexivity].
  eexists. split; reflexivity.
Defined.

Lemma app_not_empty pre k post :
  k <> "" -> String.eqb (pre ++ k ++ post) "" = false.
Proof.
  intros Hk. destruct pre; [|reflexivity].
  destruct k; [congruence|reflexivity].
Qed.

(** X15. The fallback is triggered whatever the letter case of the
    message: when the chat request is answered with an error status and
    an object whose [message] is a text containing "chat template" in
    any mix of upper and lower case, the completion request is sent. *)
Theorem chat_template_any_case w base model key resp entries pre k post :
  http_client w (chat_request base model key) = Ret resp ->
  400 <= status_code resp ->
  json resp = Ret (VDict entries) ->
  Py.lookup "message" entries = Some (VStr (pre ++ k ++ post)) ->
  PyStr.lower k = "chat template" ->
  snd (run (test_chat_model w base model key))
  = [chat_request base model key; completion_http_request base model key].
Proof.
  intros H Hs Hj Hm Hk.
  assert (Hne : k <> "") by (intros ->; discriminate Hk).
  rewrite (test_chat_model_error _ _ _ _ _ H Hs).
  rewrite (chat_test_msg_object _ _ Hj). cbn [first_truthy]. rewrite Hm.
  cbn [Py.truthy]. rewrite (app_not_empty pre k post Hne). cbn [negb Py.str].
  rewrite (contains_any_case "chat template" pre k post Hk).
  rewrite chat_fallback_steps.
  destruct (http_client w (completion_http_request base model key)) as [cresp|e];
    [|reflexivity].
  destruct (400 <=? status_code cresp); [reflexivity|].
  destruct (json cresp) as [d|e]; [|reflexivity]. cbn [rbind].
  destruct (to_chat_format model d); reflexivity.
Qed.

Lemma chat_template_any_case_witness :
  snd (run (test_chat_model
              (bridge_world
                 [("http://vllm-model-7:8000/v1/chat/completions",
                    json_response 400 "{'message': 'No Chat Template found'}"
                                  (VDict [("message", VStr "No Chat Template found")]))])
              "http://vllm-model-7:8000" "llama" ""))
  = [chat_request "http://vllm-model-7:8000" "llama" "";
     completion_http_request "http://vllm-model-7:8000" "llama" ""].
Proof.
  assert (Hs : 400 <= status_code
                        (mkResponse 400 "{'message': 'No Chat Template found'}"
                           (Ret (VDict [("message", VStr "No Chat Template found")]))))
    by (simpl; lia).
  exact (chat_template_any_case
           (bridge_world
              [("http://vllm-model-7:8000/v1/chat/completions",
                 json_response 400 "{'message': 'No Chat Template found'}"
                               (VDict [("message", VStr "No Chat Template found")]))])
           "http://vllm-model-7:8000" "llama" ""
           (mkResponse 400 "{'message': 'No Chat Template found'}"
              (Ret (VDict [("message", VStr "No Chat Template found")])))
           [("message", VStr "No Chat Template found")]
           "No " "Chat Template" " found" eq_refl Hs eq_refl eq_refl eq_refl).
Defined.

(** ** The embeddings test in full *)

(** X16. The embeddings test sends exactly one request, whatever
    happens.  It succeeds exactly when the answer has no error status
    and decodes to an object whose [data] is a list starting with an
    object that has a truthy [embedding]; it then returns the fixed
    request and the decoded body unchanged. *)
Theorem embeddings_test_success_iff w base model key resp v :
  http_client w (embeddings_request base model key) = Ret resp ->
  snd (run (test_embedding_model w base model key)) = [embeddings_request base model key] /\
  (fst (run (test_embedding_model w base model key)) = Ret v <->
   status_code resp < 400 /\
   exists body,
     json resp = Ret body /\ valid_embeddings body /\
     v = test_result (embedding_request_data model) body).
Proof.
  intros H. destruct (Z.le_gt_cases 400 (status_code resp)) as [Hs|Hs].
  - rewrite (test_embedding_model_error _ _ _ _ _ H Hs). split; [reflexivity|].
    split; [discriminate|]. intros [Hlt _]. lia.
  - rewrite (test_embedding_model_success _ _ _ _ _ H Hs). split; [reflexivity|].
    cbn [fst]. split.
    + destruct (json resp) as [d|e]; [|discriminate]. cbn [rbind].
      destruct d as [| | | | | |entries]; try discriminate.
      rewrite get_object. cbn [rbind]. unfold entry_or at 1 2 3.
      destruct (Py.lookup "data" entries) as [data|] eqn:Ed; [|discriminate].
      destruct data as [| | | | |items|]; try discriminate;
        try (destruct (negb (Py.truthy _)); discriminate).
      destruct items as [|item rest]; [discriminate|].
      cbn [Py.truthy Py.is_list negb orb Py.first rbind].
      destruct item as [| | | | | |fields]; try discriminate.
      rewrite get_object. cbn [rbind].
      destruct (Py.truthy (entry_or "embedding" fields VNone)) eqn:Et; [|discriminate].
      intros Heq; inv Heq. split; [exact Hs|]. exists (VDict entries).
      split; [reflexivity|]. split; [|reflexivity].
      exists entries, fields, rest. auto.
    + intros (_ & body & Hj & (entries & item & rest & -> & Hd & Ht) & ->).
      rewrite Hj. cbn [rbind]. rewrite get_object. cbn [rbind].
      unfold entry_or at 1 2 3. rewrite Hd.
      cbn [Py.truthy Py.is_list negb orb Py.first rbind].
      rewrite get_object. cbn [rbind]. rewrite Ht. reflexivity.
Qed.

Lemma embeddings_test_success_iff_witness :
  fst (run (test_embedding_model (answering_world embeddings_ok_body)
                                 "http://vllm-model-7:8000" "llama" ""))
  = Ret (test_result (embedding_request_data "llama") embeddings_ok_body).
Proof.
  apply (proj2 (proj2 (embeddings_test_success_iff
                         (answering_world embeddings_ok_body)
                         "http://vllm-model-7:8000" "llama" ""
                         (mkResponse 200 "" (Ret embeddings_ok_body))
                         (test_result (embedding_request_data "llama") embeddings_ok_body)
                         eq_refl))).
  split; [simpl; lia|].
  exists embeddings_ok_body. split; [reflexivity|]. split; [|reflexivity].
  eexists _, _, _. split; [reflexivity|]. split; reflexivity.
Defined.

(** ** Failures of the functional tests *)

(** X17. The functional tests do not retry and do not translate
    failures of the transport: when the first request raises, the same
    exception leaves the test after that single request; and an
    embeddings answer with an error status raises the HTTP error, status
    code and first 200 characters of the body, with no fallback. *)
Theorem functional_tests_raise_failures w base model key :
  (forall e,
      http_client w (chat_request base model key) = Raise e ->
      run (test_chat_model w base model key) = (Raise e, [chat_request base model key])) /\
  (forall e,
      http_client w (embeddings_request base model key) = Raise e ->
      run (test_embedding_model w base model key)
      = (Raise e, [embeddings_request base model key])) /\
  (forall resp,
      http_client w (embeddings_request base model key) = Ret resp ->
      400 <= status_code resp ->
      run (test_embedding_model w base model key)
      = (Raise (original_error resp), [embeddings_request base model key])).
Proof.
  split; [|split].
  - apply test_chat_model_transport.
  - apply test_embedding_model_transport.
  - apply test_embedding_model_error.
Qed.

Lemma functional_tests_raise_failures_witness :
  run (test_chat_model (bridge_world []) "http://vllm-model-7:8000" "llama" "")
  = (Raise (mkExc ConnectError "All connection attempts failed"),
     [chat_request "http://vllm-model-7:8000" "llama" ""]).
Proof.
  exact (proj1 (functional_tests_raise_failures
                  (bridge_world []) "http://vllm-model-7:8000" "llama" "")
               (mkExc ConnectError "All connection attempts failed") eq_refl).
Defined.

Lemma length_append (a b : string) :
  String.length (a ++ b) = (String.length a + String.length b)%nat.
Proof. induction a as [|c a IH]; simpl; [reflexivity|]. rewrite IH. reflexivity. Qed.

Lemma take_all n s : (String.length s <= n)%nat -> PyStr.take n s = s.
Proof.
  revert s. induction n as [|n IH]; intros s H.
  - destruct s; [reflexivity|simpl in H; lia].
  - destruct s as [|c s]; [reflexivity|]. simpl in *. rewrite IH; [reflexivity|lia].
Qed.

(** X18. The text of the HTTP error a test raises is bounded whatever
    the size of the body: 22 characters of framing, the status code, and
    at most 200 characters of the body; a body of at most 200 characters
    is quoted whole. *)
Theorem http_error_excerpt resp :
  (String.length (exc_str (http_error resp))
   <= 22 + String.length (PyStr.of_int (status_code resp)) + 200)%nat /\
  ((String.length (text resp) <= 200)%nat ->
   exc_str (http_error resp)
   = "Model returned HTTP " ++ PyStr.of_int (status_code resp) ++ ": " ++ text resp).
Proof.
  unfold http_error. cbn [exc_str]. split.
  - rewrite !length_append. pose proof (take_length 200 (text resp)).
    change (String.length "Model returned HTTP ") with 20%nat.
    change (String.length ": ") with 2%nat. lia.
  - intros H. rewrite (take_all _ _ H). reflexivity.
Qed.

Lemma http_error_excerpt_witness :
  exc_str (http_error (mkResponse 500 "Internal Server Error" not_json))
  = "Model returned HTTP 500: Internal Server Error".
Proof.
  refine (proj2 (http_error_excerpt (mkResponse 500 "Internal Server Error" not_json)) _).
  simpl. lia.
Defined.

(** ** Edges of the readiness check *)

(** X19. A name lookup that fails otherwise than by [socket.gaierror]
    is not handled: the same exception leaves [check_model_readiness],
    and nothing has been sent. *)
Theorem lookup_crash_propagates w c s hp e :
  lookup_crashes w c e ->
  run (check_model_readiness w c s hp) = (Raise e, []).
Proof.
  intros [H Hc]. unfold check_model_readiness, run. unfold bind at 1.
  unfold resolve_base_url, try_except. unfold bind at 1, lift. rewrite H.
  destruct (exc_cls e); try reflexivity. congruence.
Qed.

Lemma lookup_crash_propagates_witness :
  run (check_model_readiness strict_lookup_world "cortex..vllm" "llama" (Some 8001))
  = (Raise (mkExc Exception
                  "encoding with 'idna' codec failed (UnicodeError: label empty or too long)"),
     []).
Proof.
  apply (lookup_crash_propagates strict_lookup_world "cortex..vllm" "llama" (Some 8001)).
  split; [reflexivity|discriminate].
Defined.

(** X20. The check answers with one of three statuses, [ready],
    [loading] or [error]; the status [stopped] of the response type is
    never produced by it. *)
Theorem readiness_statuses w c s hp r log :
  run (check_model_readiness w c s hp) = (Ret r, log) ->
  (status r = "ready" \/ status r = "loading" \/ status r = "error") /\
  status r <> "stopped".
Proof.
  intros H. destruct (check_built _ _ _ _ _ _ H); split; auto; discriminate.
Qed.

Lemma readiness_statuses_witness :
  (status (loading "connection_refused") = "ready" \/
   status (loading "connection_refused") = "loading" \/
   status (loading "connection_refused") = "error") /\
  status (loading "connection_refused") <> "stopped".
Proof.
  apply (readiness_statuses (host_world []) "vllm-model-7" "llama" None
                            (loading "connection_refused")
                            [health_request "http://127.0.0.1:8000"]).
  reflexivity.
Defined.

Lemma models_503_uninspectable resp :
  (forall t, models_503_msg resp <> VStr t) ->
  Py.contains "Loading model" (models_503_msg resp) <> Ret true ->
  exists e, models_503 resp = Raise e.
Proof.
  intros Ht Hc. unfold models_503.
  destruct (models_503_msg resp) as [| | | |t|items|d]; try (eexists; reflexivity).
  - exfalso. eapply Ht. reflexivity.
  - cbn [Py.contains rbind] in *.
    destruct (existsb (fun x => Py.eq_str x "Loading model") items); [congruence|].
    eexists. reflexivity.
  - cbn [Py.contains rbind] in *.
    destruct (existsb (fun kv => String.eqb (fst kv) "Loading model") d); [congruence|].
    eexists. reflexivity.
Qed.

(** X21. A 503 from the listing endpoint whose message cannot be
    inspected is not a verdict: when the message read off the body is
    not text (a [null], a number, a list or object not holding "Loading
    model"), the failure of the inspection is swallowed and the check
    goes on to the generation request. *)
Theorem phase2_503_uninspectable_escalates w c s hp base st resp :
  run (resolve_base_url w c hp) = (Ret base, []) ->
  get_settings w = Ret st ->
  health_inconclusive w base ->
  http_client w (models_request base (api_key_of st)) = Ret resp ->
  status_code resp = 503 ->
  (forall t, models_503_msg resp <> VStr t) ->
  Py.contains "Loading model" (models_503_msg resp) <> Ret true ->
  snd (run (check_model_readiness w c s hp))
  = [health_request base; models_request base (api_key_of st);
     generation_request base (api_key_of st) s].
Proof.
  intros Hb Hs H1 H H5 Ht Hc.
  assert (H2 : models_inconclusive w base (api_key_of st)).
  { unfold models_inconclusive. rewrite H. split; [lia|].
    intros _. apply models_503_uninspectable; assumption. }
  rewrite (proj1 (check_guard _ _ s _ _ Hb)).
  rewrite (probe_phase3 _ _ _ _ Hs H1 H2). apply phase3_log.
Qed.

Lemma phase2_503_uninspectable_escalates_witness :
  snd (run (check_model_readiness
              (listing_world
                 (json_response 503 "{'error': {'message': null}}"
                    (VDict [("error", VDict [("message", VNone)])])))
              "vllm-model-7" "llama" None))
  = [health_request "http://vllm-model-7:8000";
     models_request "http://vllm-model-7:8000" "dev-internal-token";
     generation_request "http://vllm-model-7:8000" "dev-internal-token" "llama"].
Proof.
  refine (phase2_503_uninspectable_escalates
            (listing_world
               (json_response 503 "{'error': {'message': null}}"
                  (VDict [("error", VDict [("message", VNone)])])))
            "vllm-model-7" "llama" None "http://vllm-model-7:8000" (mkSettings None)
            (mkResponse 503 "{'error': {'message': null}}"
               (Ret (VDict [("error", VDict [("message", VNone)])])))
            eq_refl eq_refl _ eq_refl eq_refl _ _).
  - unfold health_inconclusive. simpl. split; discriminate.
  - intros t Heq. discriminate Heq.
  - intros Heq. discriminate Heq.
Defined.
